(** * ChiselMesh: the volume facade of the Tango reconstruction prototype

    A shallow embedding of [ChiselMesh::ChiselMesh], [ChiselMesh::addPoints]
    and [ChiselMesh::updateVertices] from
    [prototype/src/main/jni/chisel_mesh.cc], together with a model of the
    chisel volume (chunk store, projection integrator, mesh extractor) that
    the facade drives.

    Conventions.
    - C++ [int] is a 32-bit two's complement integer, [size_t] an unsigned
      integer of 32 or 64 bits depending on the ABI, [GLushort] an unsigned
      16-bit integer.  All of them are carried by [Z] with the wrap-around
      written out.
    - [float] data (point coordinates, pose entries, mesh vertices) is only
      copied by the facade; it is carried by [spec_float], which has
      infinities and NaN.
    - An out-of-bounds [operator[]] is undefined behaviour: the functions
      return [None] there.
    - The OpenGL members ([render_mode_], the shader handles) play no part
      in the two operations above and are left out of the object state. *)

From Stdlib Require Import ZArith QArith Reals Lra Lia List String.
From Stdlib Require Import Floats.SpecFloat.
From stdpp Require Import gmap list.

Local Open Scope Z_scope.

(** ** Machine integers *)

Module Machine.

Inductive abi : Set := ILP32 | LP64.

Definition size_bits (a : abi) : Z :=
  match a with ILP32 => 32 | LP64 => 64 end.

Definition INT_MAX : Z := 2 ^ 31 - 1.

(** Conversion of an integer value to [int]. *)
Definition wrap_int (x : Z) : Z := (x + 2 ^ 31) mod 2 ^ 32 - 2 ^ 31.

Definition int_add (x y : Z) : Z := wrap_int (x + y).
Definition int_mul (x y : Z) : Z := wrap_int (x * y).
(** [/] on [int] truncates toward zero. *)
Definition int_div (x y : Z) : Z := wrap_int (Z.quot x y).

(** Conversion of an integer value to [size_t]. *)
Definition wrap_size (a : abi) (x : Z) : Z := x mod 2 ^ size_bits a.

Definition size_add (a : abi) (x y : Z) : Z := wrap_size a (x + y).
Definition size_mul (a : abi) (x y : Z) : Z := wrap_size a (x * y).

(** Conversion of an integer value to [GLushort]. *)
Definition to_GLushort (x : Z) : Z := x mod 2 ^ 16.

End Machine.
Import Machine.

(** ** Floats, vectors and matrices *)

Definition float : Set := spec_float.

Definition is_finite (f : float) : bool :=
  match f with
  | S754_zero _ | S754_finite _ _ _ => true
  | S754_infinity _ | S754_nan => false
  end.

(** [chisel::Vec3] ([Eigen::Vector3f]); [v(0)], [v(1)], [v(2)] are the
    projections. *)
Record Vec3 : Set := mkVec3 { v0 : float; v1 : float; v2 : float }.

Definition Vec3_finite (v : Vec3) : bool :=
  is_finite (v0 v) && is_finite (v1 v) && is_finite (v2 v).

(** The indices 0..3 of the two 4x4 loops in [addPoints]. *)
Inductive idx4 : Set := I0 | I1 | I2 | I3.

Definition all_idx4 : list idx4 := [I0; I1; I2; I3].

Record four (A : Type) : Type := mkFour { f0 : A; f1 : A; f2 : A; f3 : A }.
Arguments mkFour {A}.
Arguments f0 {A}.
Arguments f1 {A}.
Arguments f2 {A}.
Arguments f3 {A}.

Definition get4 {A} (i : idx4) (v : four A) : A :=
  match i with I0 => f0 v | I1 => f1 v | I2 => f2 v | I3 => f3 v end.

Definition set4 {A} (i : idx4) (x : A) (v : four A) : four A :=
  match i with
  | I0 => mkFour x (f1 v) (f2 v) (f3 v)
  | I1 => mkFour (f0 v) x (f2 v) (f3 v)
  | I2 => mkFour (f0 v) (f1 v) x (f3 v)
  | I3 => mkFour (f0 v) (f1 v) (f2 v) x
  end.

(** [glm::mat4]: [m[j]] is the j-th [glm::vec4] of the matrix and [m[j][k]]
    its k-th component. *)
Definition glm_mat4 : Type := four (four float).

Definition glm_at (m : glm_mat4) (j k : idx4) : float := get4 k (get4 j m).

(** [chisel::Transform] ([Eigen::Affine3f]): a 4x4 matrix read and written
    through [operator()(row, col)]. *)
Definition Transform : Type := four (four float).

Definition Transform_at (t : Transform) (row col : idx4) : float :=
  get4 col (get4 row t).

Definition Transform_set (row col : idx4) (x : float) (t : Transform) : Transform :=
  set4 row (set4 col x (get4 row t)) t.

Definition glm_finite (m : glm_mat4) : bool :=
  forallb (fun j => forallb (fun k => is_finite (glm_at m j k)) all_idx4) all_idx4.

(** ** Diagnostics *)

Inductive log_level : Set := LOG_INFO | LOG_ERROR.

(** One [LOGI]/[LOGE] call: the format string and the integer arguments. *)
Record LogEntry : Set := mkLog {
  log_lvl : log_level;
  log_fmt : string;
  log_args : list Z
}.

Definition LOGI (fmt : string) (args : list Z) : LogEntry := mkLog LOG_INFO fmt args.
Definition LOGE (fmt : string) (args : list Z) : LogEntry := mkLog LOG_ERROR fmt args.

(** ** The chisel types the facade handles *)

(** Modelled from the spec: [chisel::PointCloud] with its [Clear] and
    [AddPoint] members, whose code is not part of the source file.  The
    spec describes it as an ordered, mutable sequence of 3-D points,
    cleared and refilled on every integration call. *)
Definition PointCloud : Set := list Vec3.
Definition PointCloud_Clear (pc : PointCloud) : PointCloud := [].
Definition PointCloud_AddPoint (pc : PointCloud) (p : Vec3) : PointCloud := pc ++ [p].

(** [chisel::ChunkID]: three integer chunk coordinates. *)
Definition ChunkID : Set := (Z * Z * Z)%type.

(** [chisel::Mesh], as far as [updateVertices] reads it: the vertex list
    and the [size_t] index list. *)
Record Mesh : Set := mkMesh {
  vertices : list Vec3;
  indices : list Z
}.

(** [chisel::MeshMap] in the order in which the range-for of
    [updateVertices] visits it. *)
Definition MeshMap : Set := list (ChunkID * Mesh).

(** [chisel::ProjectionIntegrator] as the constructor assembles it: a
    [ConstantTruncator], a [ConstantWeighter], the carving distance,
    the carving flag and the centroid table. *)
Record ProjectionIntegrator (C : Type) : Type := mkIntegrator {
  truncator : Q;
  weighter : Q;
  carvingDist : Q;
  enableVoxelCarving : bool;
  centroids : C
}.
Arguments mkIntegrator {C}.
Arguments truncator {C}.
Arguments weighter {C}.
Arguments carvingDist {C}.
Arguments enableVoxelCarving {C}.
Arguments centroids {C}.

(** The members of [chisel::Chisel] and its chunk manager that the facade
    calls.  Their code is outside the source file, so the facade is
    written against this interface; [IntegratePointCloud] answers [None]
    when the call is abandoned with the volume as it was. *)
Record ChiselLib : Type := mkChiselLib {
  Chisel : Type;
  Centroids : Type;
  Chisel_new : Z * Z * Z -> Q -> bool -> Chisel;
  GetCentroids : Chisel -> Centroids;
  IntegratePointCloud :
    ProjectionIntegrator Centroids -> PointCloud -> Transform -> Q -> Q ->
    Chisel -> option Chisel;
  UpdateMeshes : Chisel -> Chisel;
  GetAllMeshes : Chisel -> MeshMap
}.

(** The point the spec assigns to position [i] of the cloud: the triple
    (input[3i], input[3i+1], input[3i+2]). *)
Definition triple_at (input : list float) (i : nat) : option Vec3 :=
  x ← input !! (3 * i)%nat;
  y ← input !! (3 * i + 1)%nat;
  z ← input !! (3 * i + 2)%nat;
  Some (mkVec3 x y z).

(** ** The facade *)

Section Facade.

Context (L : ChiselLib).

(** The data members of [ChiselMesh] used by the two operations.  The
    scalar tuning constants keep the exact decimal value of their
    literal; [vertices_] and [indices_] are the buffers [SetVertices]
    fills and [Render] draws. *)
Record ChiselMesh : Type := mkChiselMesh {
  chunkSize : Z;
  truncationDistScale : Q;
  weighting : Q;
  enableCarving : bool;
  carvingDistance : Q;
  chunkResolution : Q;
  farClipping : Q;
  rayTruncation : Q;
  chiselMap : Chisel L;
  projectionIntegrator : ProjectionIntegrator (Centroids L);
  lastPointCloud : PointCloud;
  vertices_ : list float;
  indices_ : list Z
}.

(** The eight configuration constants of an object, in the order of the
    constructor's assignments. *)
Definition configuration (self : ChiselMesh) : Z * Q * Q * bool * Q * Q * Q * Q :=
  (chunkSize self, truncationDistScale self, weighting self, enableCarving self,
   carvingDistance self, chunkResolution self, farClipping self, rayTruncation self).

(** [ChiselMesh::ChiselMesh()].  The constructor body does not assign
    [lastPointCloud]; the cloud that member refers to once the object
    exists comes from the class declaration, which is not part of the
    source file, and is a parameter here. *)
Definition ChiselMesh_new (initialCloud : PointCloud) : ChiselMesh :=
  let chunkSize := 16 in
  let truncationDistScale := 8.0%Q in
  let weighting := 1.0%Q in
  let enableCarving := true in
  let carvingDistance := 0.5%Q in
  let chunkResolution := 0.06%Q in
  let farClipping := 2.0%Q in
  let rayTruncation := 0.5%Q in
  let chiselMap := Chisel_new L (chunkSize, chunkSize, chunkSize) chunkResolution false in
  let projectionIntegrator :=
    mkIntegrator truncationDistScale weighting carvingDistance enableCarving
                 (GetCentroids L chiselMap) in
  mkChiselMesh chunkSize truncationDistScale weighting enableCarving
               carvingDistance chunkResolution farClipping rayTruncation
               chiselMap projectionIntegrator initialCloud [] [].

Definition ChiselMesh_new_log : list LogEntry :=
  [LOGI "chisel container was created in native environment" []].

(** [vertices[e]] for an [int] expression [e]: the value is converted to
    [size_t] and read without a bounds check. *)
Definition vector_at {A} (a : abi) (v : list A) (e : Z) : option A :=
  v !! Z.to_nat (wrap_size a e).

(** Body of the first loop of [addPoints] for one value of [i]. *)
Definition addPoints_body (a : abi) (vertices : list float)
    (pc : PointCloud) (i : Z) : option PointCloud :=
  x ← vector_at a vertices (int_mul i 3);
  y ← vector_at a vertices (int_add (int_mul i 3) 1);
  z ← vector_at a vertices (int_add (int_mul i 3) 2);
  Some (PointCloud_AddPoint pc (mkVec3 x y z)).

(** [for (int i = 0; i < vertexCount; ++i) body]. *)
Fixpoint addPoints_loop (a : abi) (vertices : list float)
    (ixs : list Z) (pc : PointCloud) : option PointCloud :=
  match ixs with
  | [] => Some pc
  | i :: ixs' =>
      pc' ← addPoints_body a vertices pc i;
      addPoints_loop a vertices ixs' pc'
  end.

(** The two nested loops copying [transformation[j][k]] into
    [extrinsic(j, k)]; [extrinsic] starts as whatever the default
    constructor of [chisel::Transform] left in it. *)
Definition copy_row (transformation : glm_mat4) (j : idx4) (extrinsic : Transform) : Transform :=
  fold_left (fun e k => Transform_set j k (glm_at transformation j k) e) all_idx4 extrinsic.

Definition copy_transform (transformation : glm_mat4) (extrinsic : Transform) : Transform :=
  fold_left (fun e j => copy_row transformation j e) all_idx4 extrinsic.

(** What one call of [addPoints] leaves behind: the object, the
    diagnostics written, and whether the integrator ran to its end. *)
Record AddPointsRun : Type := mkRun {
  run_self : ChiselMesh;
  run_log : list LogEntry;
  run_integrated : bool
}.

(** [ChiselMesh::addPoints].  [uninit] is the content of the freshly
    default-constructed [extrinsic]. *)
Definition addPoints (a : abi) (self : ChiselMesh) (vertices : list float)
    (transformation : glm_mat4) (uninit : Transform) : option AddPointsRun :=
  let cleared := PointCloud_Clear (lastPointCloud self) in
  let vertexCount := wrap_int (Z.of_nat (length vertices) / 3) in
  let log := [LOGE "got %d points from as pointcloud data" [int_div vertexCount 3]] in
  cloud ← addPoints_loop a vertices (seqZ 0 vertexCount) cleared;
  let extrinsic := copy_transform transformation uninit in
  let integrated :=
    IntegratePointCloud L (projectionIntegrator self) cloud extrinsic
                        (rayTruncation self) (farClipping self) (chiselMap self) in
  Some (mkRun
    (mkChiselMesh (chunkSize self) (truncationDistScale self) (weighting self)
                  (enableCarving self) (carvingDistance self) (chunkResolution self)
                  (farClipping self) (rayTruncation self)
                  (default (chiselMap self) integrated)
                  (projectionIntegrator self) cloud
                  (vertices_ self) (indices_ self))
    log
    (bool_decide (is_Some integrated))).

(** Body of the inner loop of [updateVertices] for one [index] of one
    chunk mesh; [mesh] and [indices] are the two local vectors. *)
Definition updateVertices_body (a : abi) (m : Mesh)
    (acc : list float * list Z) (index : Z) : option (list float * list Z) :=
  v ← vector_at a (vertices m) index;
  let mesh := acc.1 ++ [v0 v] in
  let mesh := mesh ++ [v1 v] in
  let mesh := mesh ++ [v2 v] in
  let indices := acc.2 ++ [to_GLushort (size_mul a index 3)] in
  let indices := indices ++ [to_GLushort (size_add a (size_mul a index 3) 1)] in
  let indices := indices ++ [to_GLushort (size_add a (size_mul a index 3) 2)] in
  Some (mesh, indices).

Fixpoint updateVertices_inner (a : abi) (m : Mesh) (ixs : list Z)
    (acc : list float * list Z) : option (list float * list Z) :=
  match ixs with
  | [] => Some acc
  | index :: ixs' =>
      acc' ← updateVertices_body a m acc index;
      updateVertices_inner a m ixs' acc'
  end.

Fixpoint updateVertices_outer (a : abi) (meshMap : MeshMap)
    (acc : list float * list Z) : option (list float * list Z) :=
  match meshMap with
  | [] => Some acc
  | meshes :: rest =>
      acc' ← updateVertices_inner a meshes.2 (indices meshes.2) acc;
      updateVertices_outer a rest acc'
  end.

(** Modelled from the spec: [SetVertices(mesh, indices)], inherited from
    the rendering base class whose code is not part of the source file.
    The spec has it hand the two buffers to the rendering collaborator;
    [Render] reads them back from [vertices_] and [indices_]. *)
Definition SetVertices (self : ChiselMesh) (mesh : list float) (indices : list Z) : ChiselMesh :=
  mkChiselMesh (chunkSize self) (truncationDistScale self) (weighting self)
               (enableCarving self) (carvingDistance self) (chunkResolution self)
               (farClipping self) (rayTruncation self)
               (chiselMap self) (projectionIntegrator self) (lastPointCloud self)
               mesh indices.

(** The object after an in-place change of the volume [chiselMap] points
    to. *)
Definition with_chiselMap (self : ChiselMesh) (c : Chisel L) : ChiselMesh :=
  mkChiselMesh (chunkSize self) (truncationDistScale self) (weighting self)
               (enableCarving self) (carvingDistance self) (chunkResolution self)
               (farClipping self) (rayTruncation self)
               c (projectionIntegrator self) (lastPointCloud self)
               (vertices_ self) (indices_ self).

(** [ChiselMesh::updateVertices]. *)
Definition updateVertices (a : abi) (self : ChiselMesh) : option (ChiselMesh * list LogEntry) :=
  let self := with_chiselMap self (UpdateMeshes L (chiselMap self)) in
  let log := [LOGI "Generating Mesh ..." []] in
  let meshMap := GetAllMeshes L (chiselMap self) in
  let log := log ++ [LOGI "Map with %d items" [Z.of_nat (length meshMap)]] in
  '(mesh, indices) ← updateVertices_outer a meshMap ([], []);
  let log := log ++ [LOGI "Got %d polygons" [Z.of_nat (length mesh) / 3]] in
  Some (SetVertices self mesh indices, log).

End Facade.

Arguments chunkSize {L}.
Arguments truncationDistScale {L}.
Arguments weighting {L}.
Arguments enableCarving {L}.
Arguments carvingDistance {L}.
Arguments chunkResolution {L}.
Arguments farClipping {L}.
Arguments rayTruncation {L}.
Arguments chiselMap {L}.
Arguments projectionIntegrator {L}.
Arguments lastPointCloud {L}.
Arguments vertices_ {L}.
Arguments indices_ {L}.
Arguments configuration {L}.
Arguments run_self {L}.
Arguments run_log {L}.
Arguments run_integrated {L}.

(** ** The chisel volume *)

(** The chunk store, the projection integrator and the mesh extractor
    live in the chisel library, whose code is not part of the source
    file.  This module follows sections 3 and 4.1-4.4 of the spec, in
    exact real arithmetic. *)
Module Volume.

Local Open Scope R_scope.

(** Modelled from the spec: the Voxel of section 3, a signed distance
    and an accumulated weight; weight 0 means unobserved. *)
Record Voxel : Type := mkVoxel { sdf : R; weight : R }.

Definition unobserved : Voxel := mkVoxel 0 0.

(** Modelled from the spec: the Chunk of section 3, a block of voxels
    addressed by local offset together with its needs-remesh flag.  The
    block is carried by the finite map of the voxels written so far;
    every other voxel of the block is [unobserved]. *)
Record Chunk : Type := mkChunk {
  voxels : gmap (Z * Z * Z) Voxel;
  needsRemesh : bool
}.

Definition freshChunk : Chunk := mkChunk ∅ false.

(** Modelled from the spec: the Chunk Manager of section 3, the owning
    map from chunk id to Chunk, the chunk edge lengths, the voxel
    resolution, and the Mesh Map of section 3. *)
Record ChunkManager : Type := mkChunkManager {
  edge : Z * Z * Z;
  resolution : R;
  chunks : gmap ChunkID Chunk;
  allMeshes : gmap ChunkID Mesh
}.

Record Point3 : Type := mkPoint3 { px : R; py : R; pz : R }.

(** Value of a finite float; 0 for the others, which the integrator
    never converts. *)
Definition SF2R (f : float) : R :=
  match f with
  | S754_finite s m e => (if s then -1 else 1) * IZR (Z.pos m) * powerRZ 2 e
  | _ => 0
  end.

Definition Vec3_to_Point3 (v : Vec3) : Point3 :=
  mkPoint3 (SF2R (v0 v)) (SF2R (v1 v)) (SF2R (v2 v)).

(** Modelled from the spec: section 4.1, [getOrCreateChunk(chunkId)],
    which creates the chunk on a miss and never fails. *)
Definition getOrCreateChunk (cm : ChunkManager) (id : ChunkID) : Chunk :=
  default freshChunk (chunks cm !! id).

Definition putChunk (cm : ChunkManager) (id : ChunkID) (c : Chunk) : ChunkManager :=
  mkChunkManager (edge cm) (resolution cm) (<[id := c]> (chunks cm)) (allMeshes cm).

(** Modelled from the spec: section 3, the centroid table, the centre of
    every local voxel offset of a chunk. *)
Definition centroidTable (e : Z * Z * Z) (res : R) : list Point3 :=
  let '(ex, ey, ez) := e in
  z ← seqZ 0 ez; y ← seqZ 0 ey; x ← seqZ 0 ex;
  [mkPoint3 ((IZR x + / 2) * res) ((IZR y + / 2) * res) ((IZR z + / 2) * res)].

(** The voxel at a local offset of a chunk, as the integrator reads it:
    unobserved while the chunk or the voxel has not been written. *)
Definition voxelAt (cm : ChunkManager) (id : ChunkID) (off : Z * Z * Z) : Voxel :=
  default unobserved (voxels (getOrCreateChunk cm id) !! off).

(** Modelled from the spec: the tuning values section 4.3 passes to
    [integrate]: truncation half-width and sample weight (the constant
    policies of section 4.2), carving flag and distance, ray-truncation
    and far-clip distance. *)
Record Tuning : Type := mkTuning {
  halfWidth : R;
  sampleWeight : R;
  carving : bool;
  carveDist : R;
  rayTrunc : R;
  farClip : R
}.

Definition distance (a b : Point3) : R :=
  sqrt ((px b - px a) * (px b - px a) + (py b - py a) * (py b - py a)
        + (pz b - pz a) * (pz b - pz a)).

(** Modelled from the spec: section 4.3 step 1, the point taken to world
    space by the pose, and the sensor origin, the translation of the
    pose. *)
Definition toWorld (pose : Transform) (p : Point3) : Point3 :=
  let e r c := SF2R (Transform_at pose r c) in
  mkPoint3 (e I0 I0 * px p + e I0 I1 * py p + e I0 I2 * pz p + e I0 I3)
           (e I1 I0 * px p + e I1 I1 * py p + e I1 I2 * pz p + e I1 I3)
           (e I2 I0 * px p + e I2 I1 * py p + e I2 I2 * pz p + e I2 I3).

Definition sensorOrigin (pose : Transform) : Point3 :=
  mkPoint3 (SF2R (Transform_at pose I0 I3)) (SF2R (Transform_at pose I1 I3))
           (SF2R (Transform_at pose I2 I3)).

(** Modelled from the spec: section 3, chunk coordinates are the world
    position divided by (chunk edge length x voxel resolution); the
    local offset is the voxel coordinate within the chunk. *)
Definition chunkOf (e : Z * Z * Z) (res : R) (p : Point3) : ChunkID :=
  let '(ex, ey, ez) := e in
  (Int_part (px p / (IZR ex * res)), Int_part (py p / (IZR ey * res)),
   Int_part (pz p / (IZR ez * res))).

Definition offsetOf (e : Z * Z * Z) (res : R) (p : Point3) : Z * Z * Z :=
  let '(ex, ey, ez) := e in
  (Int_part (px p / res) mod ex, Int_part (py p / res) mod ey,
   Int_part (pz p / res) mod ez)%Z.

(** Modelled from the spec: section 4.3 step 5, the running weighted
    average. *)
Definition mergeSample (v : Voxel) (sampleDistance sampleWeight : R) : Voxel :=
  mkVoxel ((sdf v * weight v + sampleDistance * sampleWeight) / (weight v + sampleWeight))
          (weight v + sampleWeight).

(** Modelled from the spec: section 4.3 steps 4 and 5 for one touched
    voxel at distance [t] along a ray of length [range]: merge inside
    the truncation band; outside it, carve (back to unobserved,
    overriding the prior weight) when carving is enabled and the voxel
    lies strictly between the sensor and the surface minus the carving
    distance; otherwise leave the voxel as it is. *)
Definition updateVoxel (T : Tuning) (range t : R) (v : Voxel) : option Voxel :=
  let signedDistance := t - range in
  if Rle_dec (Rabs signedDistance) (halfWidth T) then
    Some (mergeSample v signedDistance (sampleWeight T))
  else if carving T then
    if Rlt_dec 0 t then
      if Rlt_dec t (range - carveDist T) then Some unobserved else None
    else None
  else None.

(** Point of the ray at distance [t] from the sensor. *)
Definition rayPoint (origin world : Point3) (range t : R) : Point3 :=
  mkPoint3 (px origin + t / range * (px world - px origin))
           (py origin + t / range * (py world - py origin))
           (pz origin + t / range * (pz world - pz origin)).

(** Modelled from the spec: section 4.3 steps 3 to 6 for the sample at
    distance [t]: the owning chunk is created on a miss, the voxel is
    updated by [updateVoxel], and a written voxel marks its chunk
    dirty. *)
Definition integrateSample (T : Tuning) (origin world : Point3) (range : R)
    (cm : ChunkManager) (t : R) : ChunkManager :=
  let p := rayPoint origin world range t in
  let id := chunkOf (edge cm) (resolution cm) p in
  let off := offsetOf (edge cm) (resolution cm) p in
  let c := getOrCreateChunk cm id in
  match updateVoxel T range t (default unobserved (voxels c !! off)) with
  | Some v => putChunk cm id (mkChunk (<[off := v]> (voxels c)) true)
  | None => putChunk cm id c
  end.

(** Modelled from the spec: section 4.3 step 3, the distances of the
    samples along the ray, one per voxel-resolution step from the
    sensor up to the ray-truncation distance beyond the surface. *)
Definition sampleDistances (res range rayTrunc : R) : list R :=
  map (fun k => INR k * res) (seq 0 (S (Z.to_nat (Int_part ((range + rayTrunc) / res))))).

(** Modelled from the spec: section 4.3 for one point already in world
    space: skipped beyond the far-clip distance, skipped when the ray
    has zero length, walked otherwise. *)
Definition integratePoint (T : Tuning) (origin world : Point3)
    (cm : ChunkManager) : ChunkManager :=
  let range := distance origin world in
  if Rlt_dec (farClip T) range then cm
  else if Rle_dec range 0 then cm
  else fold_left (integrateSample T origin world range)
                 (sampleDistances (resolution cm) range (rayTrunc T)) cm.

Definition Transform_finite (t : Transform) : bool :=
  forallb (fun r => forallb (fun c => is_finite (Transform_at t r c)) all_idx4) all_idx4.

Definition tuningOf {C} (pi : ProjectionIntegrator C) (rayTruncation farClipping : Q) : Tuning :=
  mkTuning (Q2R (truncator pi)) (Q2R (weighter pi)) (enableVoxelCarving pi)
           (Q2R (carvingDist pi)) (Q2R rayTruncation) (Q2R farClipping).

(** Modelled from the spec: section 4.3, [integrate]: the call is
    abandoned before any change when a coordinate or a pose entry is
    not finite (section 7); otherwise every point of the cloud is
    integrated in order. *)
Definition integrate {C} (pi : ProjectionIntegrator C) (cloud : PointCloud)
    (pose : Transform) (rayTruncation farClipping : Q)
    (cm : ChunkManager) : option ChunkManager :=
  if forallb Vec3_finite cloud && Transform_finite pose then
    Some (fold_left
            (fun cm p => integratePoint (tuningOf pi rayTruncation farClipping)
                           (sensorOrigin pose) (toWorld pose (Vec3_to_Point3 p)) cm)
            cloud cm)
  else None.

Section Extractor.

(** The isosurface extraction of one chunk from the voxel contents of
    the store (the chunk's own voxels and its neighbours'); the spec
    only names its family (marching cubes). *)
Context (extractSurface : gmap ChunkID (gmap (Z * Z * Z) Voxel) -> ChunkID -> Mesh).

Definition markClean (c : Chunk) : Chunk := mkChunk (voxels c) false.

(** Modelled from the spec: section 4.4, [remesh]: every dirty chunk
    gets a mesh extracted from the current voxel contents, replacing
    the chunk's previous mesh wholesale, and its dirty flag is reset. *)
Definition remesh (cm : ChunkManager) : ChunkManager :=
  let contents := voxels <$> chunks cm in
  let rebuilt :=
    map_imap (fun id c => if needsRemesh c then Some (extractSurface contents id) else None)
             (chunks cm) in
  mkChunkManager (edge cm) (resolution cm) (markClean <$> chunks cm)
                 (rebuilt ∪ allMeshes cm).

(** The chisel library as this module describes it. *)
Definition lib : ChiselLib :=
  mkChiselLib ChunkManager (list Point3)
    (fun e res _ => mkChunkManager e (Q2R res) ∅ ∅)
    (fun cm => centroidTable (edge cm) (resolution cm))
    (@integrate (list Point3))
    remesh
    (fun cm => map_to_list (allMeshes cm)).

End Extractor.

End Volume.

(** ** Notions used by the statements *)

(** The malformed inputs of section 7 of the spec: a length that is
    not a multiple of 3, or a coordinate or a transform entry that is
    not finite. *)
Definition malformed (input : list float) (transformation : glm_mat4) : bool :=
  negb (length input mod 3 =? 0)%nat
  || negb (forallb is_finite input)
  || negb (glm_finite transformation).

(** A chunk mesh is well formed when every index names one of its
    vertices (and is a [size_t] value of the ABI). *)
Definition Mesh_wf (a : abi) (m : Mesh) : bool :=
  forallb (fun i => (0 <=? i)%Z && (i <? Z.of_nat (length (vertices m)))%Z
                    && (i <? 2 ^ size_bits a)%Z)
          (indices m).

Definition MeshMap_wf (a : abi) (meshMap : MeshMap) : bool :=
  forallb (fun meshes => Mesh_wf a meshes.2) meshMap.

(** The indices of a mesh map in visiting order, and the vertices they
    name. *)
Definition all_indices (meshMap : MeshMap) : list Z :=
  flat_map (fun meshes => indices meshes.2) meshMap.

Definition indexed_vertices (meshMap : MeshMap) : list Vec3 :=
  flat_map (fun meshes => omap (fun i => vertices meshes.2 !! Z.to_nat i) (indices meshes.2))
           meshMap.

Definition xyz (v : Vec3) : list float := [v0 v; v1 v; v2 v].

(** The three index-buffer entries stored for the vertex index [i]. *)
Definition stored_entries (i : Z) : list Z :=
  [(3 * i) mod 65536; (3 * i + 1) mod 65536; (3 * i + 2) mod 65536]%Z.

(** The calls the rendering layer makes on the facade, and a run of
    several of them in a row. *)
Inductive call : Type :=
  | AddPoints (a : abi) (input : list float) (pose : glm_mat4) (uninit : Transform)
  | UpdateVertices (a : abi).

Definition perform (L : ChiselLib) (self : ChiselMesh L) (c : call) : option (ChiselMesh L) :=
  match c with
  | AddPoints a input pose uninit => run_self <$> addPoints L a self input pose uninit
  | UpdateVertices a => fst <$> updateVertices L a self
  end.

Fixpoint performAll (L : ChiselLib) (calls : list call) (self : ChiselMesh L)
    : option (ChiselMesh L) :=
  match calls with
  | [] => Some self
  | c :: calls' => self' ← perform L self c; performAll L calls' self'
  end.

(** The tuning the facade hands to the integrator right after
    construction. *)
Definition configuredTuning (L : ChiselLib) : Volume.Tuning :=
  let self := ChiselMesh_new L [] in
  Volume.tuningOf (projectionIntegrator self) (rayTruncation self) (farClipping self).

(** ** Sample data *)

Module Sample.

Definition zero : float := S754_zero false.
Definition one : float := S754_finite false 8388608 (-23).
Definition two : float := S754_finite false 8388608 (-22).
Definition three : float := S754_finite false 12582912 (-22).
Definition nan : float := S754_nan.

Definition identity : glm_mat4 :=
  mkFour (mkFour one zero zero zero) (mkFour zero one zero zero)
         (mkFour zero zero one zero) (mkFour zero zero zero one).

Definition garbage : Transform :=
  mkFour (mkFour nan nan nan nan) (mkFour nan two nan nan)
         (mkFour nan nan nan three) (mkFour one nan nan nan).

(** An extractor that finds no surface anywhere. *)
Definition noSurface (contents : gmap ChunkID (gmap (Z * Z * Z) Volume.Voxel))
    (id : ChunkID) : Mesh := mkMesh [] [].

Definition lib : ChiselLib := Volume.lib noSurface.

(** A freshly constructed object. *)
Definition fresh : ChiselMesh lib := ChiselMesh_new lib [].

(** A volume whose only chunk mesh has 21846 vertices and a single
    index, the last vertex. *)
Definition bigMesh : Mesh := mkMesh (replicate (Z.to_nat 21846) (mkVec3 one two three)) [21845].

Definition bigVolume : Volume.ChunkManager :=
  Volume.mkChunkManager (16, 16, 16) (Q2R 0.06) ∅ {[ (0, 0, 0) := bigMesh ]}.

Definition withBigMesh : ChiselMesh lib := with_chiselMap lib fresh bigVolume.

(** A volume with two chunk meshes of one triangle each. *)
Definition triangle (z : float) : Mesh :=
  mkMesh [mkVec3 zero zero z; mkVec3 one zero z; mkVec3 zero one z] [0; 1; 2].

Definition twoTriangles : Volume.ChunkManager :=
  Volume.mkChunkManager (16, 16, 16) (Q2R 0.06) ∅
    {[ (0, 0, 0) := triangle one; (0, 0, 1) := triangle two ]}.

Definition withTwoTriangles : ChiselMesh lib := with_chiselMap lib fresh twoTriangles.

End Sample.

(** ** The rendering members *)

(** The calls of [addPoints] regroup the input; this is the grouping
    read as a function of the input alone. *)
Fixpoint triples (input : list float) : list Vec3 :=
  match input with
  | x :: y :: z :: rest => mkVec3 x y z :: triples rest
  | _ => []
  end.

(** A mesh map whose indices are [size_t] values of the ABI. *)
Definition MeshMap_typed (a : abi) (meshMap : MeshMap) : bool :=
  forallb (fun meshes =>
             forallb (fun i => (0 <=? i)%Z && (i <? 2 ^ size_bits a)%Z) (indices meshes.2))
          meshMap.

(** The two local vectors of [updateVertices] after more has been
    pushed onto each. *)
Definition append_buffers (acc r : list float * list Z) : list float * list Z :=
  (acc.1 ++ r.1, acc.2 ++ r.2).

(** OpenGL enumerants and sizes used by [Render]. *)
Definition GL_TRIANGLES : Z := 4.
Definition GL_UNSIGNED_SHORT : Z := 5123.
Definition GL_FLOAT : Z := 5126.
Definition GL_FALSE : bool := false.
Definition sizeof_GLfloat : Z := 4.

(** Conversion of an integer value to [GLuint]. *)
Definition to_GLuint (x : Z) : Z := x mod 2 ^ 32.

(** [glm::vec3]. *)
Definition glm_vec3 : Set := (float * float * float)%type.

Definition minus_one : float := S754_finite true 8388608 (-23).
Definition minus_three : float := S754_finite true 12582912 (-22).

(** The members the rendering functions read and write, apart from
    [vertices_] and [indices_], which [ChiselMesh] already carries.  [B]
    is the type of bounding boxes, [Rot] the type of rotations;
    [bounding_box_] is [None] while the pointer refers to no box.
    [rotation] and [transformation_matrix] stand for what [GetRotation()]
    and [GetTransformationMatrix()] return. *)
Record DrawState (B Rot : Type) : Type := mkDrawState {
  render_mode_ : Z;
  shader_program_ : Z;
  uniform_mvp_mat_ : Z;
  uniform_mv_mat_ : Z;
  uniform_light_vec_ : Z;
  uniform_color_ : Z;
  attrib_vertices_ : Z;
  attrib_normals_ : Z;
  is_lighting_on_ : bool;
  is_bounding_box_on_ : bool;
  light_direction_ : glm_vec3;
  bounding_box_ : option B;
  normals_ : list float;
  red_ : float;
  green_ : float;
  blue_ : float;
  alpha_ : float;
  rotation : Rot;
  transformation_matrix : glm_mat4
}.
Arguments mkDrawState {B Rot}.
Arguments render_mode_ {B Rot}.
Arguments shader_program_ {B Rot}.
Arguments uniform_mvp_mat_ {B Rot}.
Arguments uniform_mv_mat_ {B Rot}.
Arguments uniform_light_vec_ {B Rot}.
Arguments uniform_color_ {B Rot}.
Arguments attrib_vertices_ {B Rot}.
Arguments attrib_normals_ {B Rot}.
Arguments is_lighting_on_ {B Rot}.
Arguments is_bounding_box_on_ {B Rot}.
Arguments light_direction_ {B Rot}.
Arguments bounding_box_ {B Rot}.
Arguments normals_ {B Rot}.
Arguments red_ {B Rot}.
Arguments green_ {B Rot}.
Arguments blue_ {B Rot}.
Arguments alpha_ {B Rot}.
Arguments rotation {B Rot}.
Arguments transformation_matrix {B Rot}.

(** What the rendering functions call outside the source file: the
    tango_gl base class and bounding box, the shader sources, the
    program and location queries of the GL driver, and the glm
    operations. *)
Record TangoGL : Type := mkTangoGL {
  BoundingBox : Type;
  Segment : Type;
  Rotation : Type;
  BoundingBox_new : list float -> BoundingBox;
  BoundingBox_IsIntersecting : BoundingBox -> Segment -> Rotation -> glm_mat4 -> bool;
  DrawableObject_SetShader :
    DrawState BoundingBox Rotation -> DrawState BoundingBox Rotation * list LogEntry;
  GetShadedVertexShader : string;
  GetBasicFragmentShader : string;
  CreateProgram : string -> string -> Z;
  glGetUniformLocation : Z -> string -> Z;
  glGetAttribLocation : Z -> string -> Z;
  mat4_mul : glm_mat4 -> glm_mat4 -> glm_mat4;
  mat3_mul_vec3 : glm_mat4 -> glm_vec3 -> glm_vec3;
  normalize : glm_vec3 -> glm_vec3
}.

(** The OpenGL calls [Render] issues, in the order of their arguments;
    a pointer argument is carried by the array it points to. *)
Inductive gl_call : Type :=
  | glUseProgram (program : Z)
  | glUniformMatrix4fv (location count : Z) (transpose : bool) (value : glm_mat4)
  | glUniform4f (location : Z) (x y z w : float)
  | glUniform3fv (location count : Z) (value : glm_vec3)
  | glEnableVertexAttribArray (index : Z)
  | glDisableVertexAttribArray (index : Z)
  | glVertexAttribPointer (index size type : Z) (normalized : bool) (stride : Z)
                          (pointer : list float)
  | glDrawElements (mode count type : Z) (indices : list Z)
  | glDrawArrays (mode first count : Z).

Section Rendering.

Context (L : ChiselLib) (G : TangoGL).

Abbreviation Draw := (DrawState (BoundingBox G) (Rotation G)).

Definition with_flags (d : Draw) (lighting box : bool) : Draw :=
  mkDrawState (render_mode_ d) (shader_program_ d) (uniform_mvp_mat_ d) (uniform_mv_mat_ d)
              (uniform_light_vec_ d) (uniform_color_ d) (attrib_vertices_ d)
              (attrib_normals_ d) lighting box (light_direction_ d) (bounding_box_ d)
              (normals_ d) (red_ d) (green_ d) (blue_ d) (alpha_ d) (rotation d)
              (transformation_matrix d).

Definition with_render_mode (d : Draw) (mode : Z) : Draw :=
  mkDrawState mode (shader_program_ d) (uniform_mvp_mat_ d) (uniform_mv_mat_ d)
              (uniform_light_vec_ d) (uniform_color_ d) (attrib_vertices_ d)
              (attrib_normals_ d) (is_lighting_on_ d) (is_bounding_box_on_ d)
              (light_direction_ d) (bounding_box_ d)
              (normals_ d) (red_ d) (green_ d) (blue_ d) (alpha_ d) (rotation d)
              (transformation_matrix d).

(** [ChiselMesh::SetShader()]. *)
Definition SetShader (d : Draw) : Draw * list LogEntry :=
  let '(d, log) := DrawableObject_SetShader G d in
  let is_lighting_on_ := false in
  let is_bounding_box_on_ := false in
  (with_flags d is_lighting_on_ is_bounding_box_on_, log).

(** [ChiselMesh::SetShader(bool is_lighting_on)].  The attribute
    locations are used as [GLuint], the type of the index parameter of
    [glEnableVertexAttribArray] and [glVertexAttribPointer]: the
    [GLint] a query returns is carried modulo 2^32, so that a failed
    query, -1, is 4294967295.  The uniform locations are used as
    [GLint] and carried as the value the query returned. *)
Definition SetShader_lighting (is_lighting_on : bool) (d : Draw) : Draw * list LogEntry :=
  if is_lighting_on then
    let shader_program_ :=
      CreateProgram G (GetShadedVertexShader G) (GetBasicFragmentShader G) in
    let log := if (shader_program_ =? 0)%Z then [LOGE "Could not create program." []] else [] in
    let uniform_mvp_mat_ := glGetUniformLocation G shader_program_ "mvp" in
    let uniform_mv_mat_ := glGetUniformLocation G shader_program_ "mv" in
    let uniform_light_vec_ := glGetUniformLocation G shader_program_ "lightVec" in
    let uniform_color_ := glGetUniformLocation G shader_program_ "color" in
    let attrib_vertices_ := to_GLuint (glGetAttribLocation G shader_program_ "vertex") in
    let attrib_normals_ := to_GLuint (glGetAttribLocation G shader_program_ "normal") in
    let is_lighting_on_ := true in
    let light_direction_ := (minus_one, minus_three, minus_one) in
    let light_direction_ := normalize G light_direction_ in
    (mkDrawState (render_mode_ d) shader_program_ uniform_mvp_mat_ uniform_mv_mat_
                 uniform_light_vec_ uniform_color_ attrib_vertices_ attrib_normals_
                 is_lighting_on_ (is_bounding_box_on_ d) light_direction_ (bounding_box_ d)
                 (normals_ d) (red_ d) (green_ d) (blue_ d) (alpha_ d) (rotation d)
                 (transformation_matrix d),
     log)
  else SetShader d.

(** The rendering part of [ChiselMesh::ChiselMesh()]: [render_mode_] is
    set, then [SetShader()] runs; [initial] is the state of the members
    when the constructor body starts. *)
Definition ChiselMesh_new_draw (initial : Draw) : Draw * list LogEntry :=
  SetShader (with_render_mode initial GL_TRIANGLES).

(** [ChiselMesh::ChiselMesh(GLenum render_mode)], which assigns nothing
    but [render_mode_]. *)
Definition ChiselMesh_new_mode (render_mode : Z) (initial : Draw) : Draw :=
  with_render_mode initial render_mode.

(** [ChiselMesh::SetBoundingBox]. *)
Definition SetBoundingBox (self : ChiselMesh L) (d : Draw) : Draw * list LogEntry :=
  if (Z.of_nat (length (vertices_ self)) =? 0)%Z then
    (d, [LOGE "Please set up vertices first!" []])
  else
    let is_bounding_box_on_ := true in
    let bounding_box_ := Some (BoundingBox_new G (vertices_ self)) in
    (mkDrawState (render_mode_ d) (shader_program_ d) (uniform_mvp_mat_ d)
                 (uniform_mv_mat_ d) (uniform_light_vec_ d) (uniform_color_ d)
                 (attrib_vertices_ d) (attrib_normals_ d) (is_lighting_on_ d)
                 is_bounding_box_on_ (light_direction_ d) bounding_box_
                 (normals_ d) (red_ d) (green_ d) (blue_ d) (alpha_ d) (rotation d)
                 (transformation_matrix d),
     []).

(** [ChiselMesh::SetLightDirection]. *)
Definition SetLightDirection (light_direction : glm_vec3) (d : Draw) : Draw :=
  mkDrawState (render_mode_ d) (shader_program_ d) (uniform_mvp_mat_ d)
              (uniform_mv_mat_ d) (uniform_light_vec_ d) (uniform_color_ d)
              (attrib_vertices_ d) (attrib_normals_ d) (is_lighting_on_ d)
              (is_bounding_box_on_ d) light_direction (bounding_box_ d)
              (normals_ d) (red_ d) (green_ d) (blue_ d) (alpha_ d) (rotation d)
              (transformation_matrix d).

(** [ChiselMesh::IsIntersecting]: the answer and the diagnostics;
    [None] when the pointer followed refers to no box. *)
Definition IsIntersecting (d : Draw) (segment : Segment G) : option (bool * list LogEntry) :=
  if negb (is_bounding_box_on_ d) then
    Some (false, [LOGE "ChiselMesh::IsIntersecting, bounding box is not available." []])
  else
    box ← bounding_box_ d;
    Some (BoundingBox_IsIntersecting G box segment (rotation d) (transformation_matrix d), []).

(** [&v[0]]: the address of the first element, which an empty vector
    does not have; [v.data()] is defined for every vector. *)
Definition address_of_first {A} (v : list A) : option (list A) :=
  match v with [] => None | _ :: _ => Some v end.

Definition data {A} (v : list A) : list A := v.

(** [ChiselMesh::Render]: the OpenGL calls issued, in order. *)
Definition Render (self : ChiselMesh L) (d : Draw) (projection_mat view_mat : glm_mat4)
    : option (list gl_call) :=
  let calls := [glUseProgram (shader_program_ d)] in
  let model_mat := transformation_matrix d in
  let mv_mat := mat4_mul G view_mat model_mat in
  let mvp_mat := mat4_mul G projection_mat mv_mat in
  let calls := calls ++ [glUniformMatrix4fv (uniform_mvp_mat_ d) 1 GL_FALSE mvp_mat] in
  let calls := calls ++ [glUniform4f (uniform_color_ d) (red_ d) (green_ d) (blue_ d) (alpha_ d)] in
  calls ←
    (if is_lighting_on_ d then
       let calls := calls ++ [glUniformMatrix4fv (uniform_mv_mat_ d) 1 GL_FALSE mv_mat] in
       let calls := calls ++ [glEnableVertexAttribArray (attrib_normals_ d)] in
       normals ← address_of_first (normals_ d);
       let calls :=
         calls ++ [glVertexAttribPointer (attrib_normals_ d) 3 GL_FLOAT GL_FALSE
                                         (3 * sizeof_GLfloat) normals] in
       let light_direction := mat3_mul_vec3 G view_mat (light_direction_ d) in
       Some (calls ++ [glUniform3fv (uniform_light_vec_ d) 1 light_direction])
     else Some calls);
  let calls := calls ++ [glEnableVertexAttribArray (attrib_vertices_ d)] in
  calls ←
    (if negb (bool_decide (indices_ self = [])) then
       let calls :=
         calls ++ [glVertexAttribPointer (attrib_vertices_ d) 3 GL_FLOAT GL_FALSE
                                         (3 * sizeof_GLfloat) (data (vertices_ self))] in
       Some (calls ++ [glDrawElements (render_mode_ d)
                                      (wrap_int (Z.of_nat (length (indices_ self))))
                                      GL_UNSIGNED_SHORT (data (indices_ self))])
     else
       first ← address_of_first (vertices_ self);
       let calls :=
         calls ++ [glVertexAttribPointer (attrib_vertices_ d) 3 GL_FLOAT GL_FALSE
                                         (3 * sizeof_GLfloat) first] in
       Some (calls ++ [glDrawArrays (render_mode_ d) 0
                                    (wrap_int (Z.of_nat (length (vertices_ self)) / 3))]));
  let calls := calls ++ [glDisableVertexAttribArray (attrib_vertices_ d)] in
  let calls :=
    if is_lighting_on_ d then calls ++ [glDisableVertexAttribArray (attrib_normals_ d)]
    else calls in
  Some (calls ++ [glUseProgram 0]).

(** The calls a client can make on the rendering side of an object, and
    a run of them; [updateVertices] and [addPoints] act on the other
    members. *)
Inductive draw_call : Type :=
  | CallSetShader
  | CallSetShaderLighting (is_lighting_on : bool)
  | CallSetBoundingBox
  | CallSetLightDirection (light_direction : glm_vec3)
  | CallFacade (c : call).

Definition perform_draw (obj : ChiselMesh L * Draw) (c : draw_call)
    : option (ChiselMesh L * Draw) :=
  match c with
  | CallSetShader => Some (obj.1, (SetShader obj.2).1)
  | CallSetShaderLighting b => Some (obj.1, (SetShader_lighting b obj.2).1)
  | CallSetBoundingBox => Some (obj.1, (SetBoundingBox obj.1 obj.2).1)
  | CallSetLightDirection v => Some (obj.1, SetLightDirection v obj.2)
  | CallFacade c => self' ← perform L obj.1 c; Some (self', obj.2)
  end.

Fixpoint perform_draws (calls : list draw_call) (obj : ChiselMesh L * Draw)
    : option (ChiselMesh L * Draw) :=
  match calls with
  | [] => Some obj
  | c :: calls' => obj' ← perform_draw obj c; perform_draws calls' obj'
  end.

(** [IsIntersecting] follows [bounding_box_] only when
    [is_bounding_box_on_] is set; this says a box is there whenever it
    would. *)
Definition box_available (d : Draw) : Prop :=
  is_bounding_box_on_ d = true -> is_Some (bounding_box_ d).

(** The vertex attribute arrays a sequence of calls leaves enabled,
    starting from the arrays [on]. *)
Fixpoint arrays_enabled (calls : list gl_call) (on : list Z) : list Z :=
  match calls with
  | [] => on
  | glEnableVertexAttribArray i :: calls' => arrays_enabled calls' (i :: on)
  | glDisableVertexAttribArray i :: calls' =>
      arrays_enabled calls' (filter (fun j => j <> i) on)
  | _ :: calls' => arrays_enabled calls' on
  end.

Definition is_draw (c : gl_call) : bool :=
  match c with
  | glDrawElements _ _ _ _ | glDrawArrays _ _ _ => true
  | _ => false
  end.

End Rendering.

(** ** Repeated integration *)

Section Repeated.

Import Volume.
Local Open Scope R_scope.





End Repeated.

(** ** More sample data *)

Module Sample2.

(** A volume whose only chunk mesh has one vertex and an index past it. *)
Definition danglingMesh : Mesh :=
  mkMesh [mkVec3 Sample.one Sample.two Sample.three] [1%Z].

Definition danglingVolume : Volume.ChunkManager :=
  Volume.mkChunkManager (16, 16, 16)%Z (Q2R 0.06) ∅ {[ (0, 0, 0)%Z := danglingMesh ]}.

Definition withDangling : ChiselMesh Sample.lib :=
  with_chiselMap Sample.lib Sample.fresh danglingVolume.

(** A volume with a single triangle. *)
Definition oneTriangle : Volume.ChunkManager :=
  Volume.mkChunkManager (16, 16, 16)%Z (Q2R 0.06) ∅ {[ (0, 0, 0)%Z := Sample.triangle Sample.one ]}.

Definition withOneTriangle : ChiselMesh Sample.lib :=
  with_chiselMap Sample.lib Sample.fresh oneTriangle.

(** A volume with one chunk whose mesh is empty. *)
Definition emptyMeshVolume : Volume.ChunkManager :=
  Volume.mkChunkManager (16, 16, 16)%Z (Q2R 0.06) ∅ {[ (0, 0, 0)%Z := mkMesh [] [] ]}.

Definition withEmptyMesh : ChiselMesh Sample.lib :=
  with_chiselMap Sample.lib Sample.fresh emptyMeshVolume.

(** A rendering back end that answers with fixed values: program
    creation fails (returns 0), every location is 5, boxes are the
    vertex arrays they were built from and intersect every segment. *)
Definition gl : TangoGL :=
  mkTangoGL (list float) unit unit
    (fun vertices => vertices)
    (fun box segment rotation matrix => true)
    (fun d => (d, []))
    "shaded vertex shader" "basic fragment shader"
    (fun vertex_shader fragment_shader => 0%Z)
    (fun program name => 5%Z)
    (fun program name => 5%Z)
    (fun m n => m)
    (fun m v => v)
    (fun v => v).

(** Members left by whatever ran before the constructor body: the
    bounding-box flag is set although there is no box. *)
Definition unset : DrawState (list float) unit :=
  mkDrawState 0 0 0 0 0 0 1 2 true true (Sample.zero, Sample.zero, Sample.zero) None
              [] Sample.one Sample.one Sample.one Sample.one tt Sample.identity.

(** A back end as a driver answers for program 0: program creation
    fails and every location query returns -1. *)
Definition glFailing : TangoGL :=
  mkTangoGL (list float) unit unit
    (fun vertices => vertices)
    (fun box segment rotation matrix => true)
    (fun d => (d, []))
    "shaded vertex shader" "basic fragment shader"
    (fun vertex_shader fragment_shader => 0%Z)
    (fun program name => (-1)%Z)
    (fun program name => (-1)%Z)
    (fun m n => m)
    (fun m v => v)
    (fun v => v).

(** Members of an object that has one normal. *)
Definition withNormal : DrawState (list float) unit :=
  mkDrawState GL_TRIANGLES 3 0 0 0 0 1 2 false false (Sample.zero, Sample.zero, Sample.one)
              None [Sample.zero; Sample.zero; Sample.one]
              Sample.one Sample.one Sample.one Sample.one tt Sample.identity.



End Sample2.

(** * Properties *)

(** ** Machine integers *)

Lemma wrap_int_small (x : Z) :
  (- 2 ^ 31 <= x < 2 ^ 31)%Z -> wrap_int x = x.
Proof.
  intros Hx. unfold wrap_int. rewrite Z.mod_small; lia.
Qed.

Lemma wrap_size_small (a : abi) (x : Z) :
  (0 <= x <= INT_MAX)%Z -> wrap_size a x = x.
Proof.
  unfold wrap_size, INT_MAX. intros Hx.
  apply Z.mod_small. destruct a; simpl; lia.
Qed.

(** On every ABI the [size_t] wrap-around disappears in the conversion
    to [GLushort]. *)
Lemma to_GLushort_wrap_size (a : abi) (x : Z) :
  to_GLushort (wrap_size a x) = to_GLushort x.
Proof.
  unfold to_GLushort, wrap_size.
  apply Z.mod_mod_divide.
  destruct a; simpl size_bits.
  - exists (2 ^ 16)%Z. reflexivity.
  - exists (2 ^ 48)%Z. reflexivity.
Qed.

Lemma to_GLushort_index (a : abi) (index k : Z) :
  to_GLushort (size_add a (size_mul a index 3) k) = ((3 * index + k) mod 65536)%Z.
Proof.
  unfold size_add, size_mul. rewrite to_GLushort_wrap_size.
  unfold to_GLushort, wrap_size.
  rewrite Zplus_mod.
  assert (H : ((index * 3) mod 2 ^ size_bits a mod 2 ^ 16 = (index * 3) mod 2 ^ 16)%Z)
    by apply (to_GLushort_wrap_size a).
  rewrite H, <- Zplus_mod. f_equal. lia.
Qed.

Lemma to_GLushort_index0 (a : abi) (index : Z) :
  to_GLushort (size_mul a index 3) = ((3 * index) mod 65536)%Z.
Proof.
  unfold size_mul. rewrite to_GLushort_wrap_size. unfold to_GLushort.
  f_equal. lia.
Qed.

(** ** The pose copy *)

(** The two loops overwrite all sixteen entries: the result is the
    argument matrix, entry [(j, k)] holding [transformation[j][k]],
    whatever the default constructor left in [extrinsic]. *)
Lemma copy_transform_all (transformation : glm_mat4) (uninit : Transform) :
  copy_transform transformation uninit = transformation.
Proof.
  destruct transformation as [[] [] [] []], uninit as [[] [] [] []].
  reflexivity.
Qed.

Lemma copy_transform_at (transformation : glm_mat4) (uninit : Transform) (j k : idx4) :
  Transform_at (copy_transform transformation uninit) j k = glm_at transformation j k.
Proof. rewrite copy_transform_all. reflexivity. Qed.

(** ** The point-cloud loop *)

Lemma vector_at_small {A} (a : abi) (v : list A) (e : Z) :
  (0 <= e <= INT_MAX)%Z -> vector_at a v e = v !! Z.to_nat e.
Proof. intros He. unfold vector_at. by rewrite wrap_size_small. Qed.

Lemma addPoints_body_spec (a : abi) (vs : list float) (pc : PointCloud) (i : nat) :
  (Z.of_nat (length vs) <= INT_MAX)%Z ->
  (3 * i + 2 < length vs)%nat ->
  exists p, triple_at vs i = Some p /\
            addPoints_body a vs pc (Z.of_nat i) = Some (pc ++ [p]).
Proof.
  intros Hmax Hi. unfold INT_MAX in Hmax.
  destruct (lookup_lt_is_Some_2 vs (3 * i)) as [x Hx]; [lia|].
  destruct (lookup_lt_is_Some_2 vs (3 * i + 1)) as [y Hy]; [lia|].
  destruct (lookup_lt_is_Some_2 vs (3 * i + 2)) as [z Hz]; [lia|].
  exists (mkVec3 x y z). split.
  - unfold triple_at. rewrite Hx, Hy, Hz. reflexivity.
  - unfold addPoints_body, int_add, int_mul.
    rewrite (wrap_int_small (Z.of_nat i * 3)) by lia.
    rewrite !wrap_int_small by lia.
    rewrite !vector_at_small by (unfold INT_MAX; lia).
    replace (Z.to_nat (Z.of_nat i * 3)) with (3 * i)%nat by lia.
    replace (Z.to_nat (Z.of_nat i * 3 + 1)) with (3 * i + 1)%nat by lia.
    replace (Z.to_nat (Z.of_nat i * 3 + 2)) with (3 * i + 2)%nat by lia.
    rewrite Hx, Hy, Hz. reflexivity.
Qed.

Lemma addPoints_loop_spec (a : abi) (vs : list float) :
  (Z.of_nat (length vs) <= INT_MAX)%Z ->
  forall (k m : nat) (pc : PointCloud),
    (3 * (m + k) <= length vs)%nat ->
    exists pts,
      addPoints_loop a vs (seqZ (Z.of_nat m) (Z.of_nat k)) pc = Some (pc ++ pts) /\
      length pts = k /\
      forall j, (j < k)%nat -> pts !! j = triple_at vs (m + j) /\ is_Some (pts !! j).
Proof.
  intros Hmax. induction k as [|k IH]; intros m pc Hk.
  - exists []. rewrite app_nil_r. repeat split; try reflexivity; intros; lia.
  - rewrite seqZ_cons by lia. simpl addPoints_loop.
    destruct (addPoints_body_spec a vs pc m Hmax) as (p & Hp & Hbody); [lia|].
    rewrite Hbody. simpl.
    replace (Z.succ (Z.of_nat m)) with (Z.of_nat (S m)) by lia.
    replace (Z.pred (Z.of_nat (S k))) with (Z.of_nat k) by lia.
    destruct (IH (S m) (pc ++ [p])) as (pts & Hloop & Hlen & Hpts); [lia|].
    exists (p :: pts). rewrite Hloop, <- app_assoc. simpl.
    split; [reflexivity|]. split; [by rewrite Hlen|].
    intros [|j] Hj; simpl.
    + rewrite Nat.add_0_r. by rewrite Hp.
    + replace (m + S j)%nat with (S m + j)%nat by lia. apply Hpts. lia.
Qed.

(** ** The embedded functions on small inputs *)

Example wrap_int_past_INT_MAX : wrap_int (INT_MAX + 1) = (- 2 ^ 31)%Z.
Proof. reflexivity. Qed.

Example to_GLushort_65537 : to_GLushort (size_add LP64 (size_mul LP64 21845 3) 2) = 1%Z.
Proof. reflexivity. Qed.

Example copy_transform_over_garbage :
  copy_transform Sample.identity Sample.garbage = Sample.identity.
Proof. reflexivity. Qed.

Example addPoints_loop_seven_floats :
  addPoints_loop LP64
    [Sample.one; Sample.two; Sample.three; Sample.zero; Sample.one; Sample.two; Sample.nan]
    (seqZ 0 2) []
  = Some [mkVec3 Sample.one Sample.two Sample.three; mkVec3 Sample.zero Sample.one Sample.two].
Proof. reflexivity. Qed.

Example addPoints_body_past_the_end :
  addPoints_body ILP32 [Sample.one; Sample.two] [] 0 = None.
Proof. reflexivity. Qed.

Example updateVertices_outer_one_triangle :
  updateVertices_outer LP64 [((0, 0, 0)%Z, Sample.triangle Sample.two)] ([], [])
  = Some ([Sample.zero; Sample.zero; Sample.two; Sample.one; Sample.zero; Sample.two;
           Sample.zero; Sample.one; Sample.two],
          [0; 1; 2; 3; 4; 5; 6; 7; 8]%Z).
Proof. reflexivity. Qed.

Example updateVertices_outer_dangling_index :
  updateVertices_outer LP64
    [((0, 0, 0)%Z, mkMesh [mkVec3 Sample.one Sample.two Sample.three] [1%Z])] ([], [])
  = None.
Proof. reflexivity. Qed.

(** ** [addPoints] *)

(** The complete effect of a call whose input length fits an [int]. *)
Lemma addPoints_run (L : ChiselLib) (a : abi) (self : ChiselMesh L)
    (vs : list float) (T : glm_mat4) (uninit : Transform) :
  (Z.of_nat (length vs) <= INT_MAX)%Z ->
  exists cloud,
    length cloud = (length vs / 3)%nat /\
    (forall i, (i < length vs / 3)%nat ->
       cloud !! i = triple_at vs i /\ is_Some (cloud !! i)) /\
    let integrated :=
      IntegratePointCloud L (projectionIntegrator self) cloud T
                          (rayTruncation self) (farClipping self) (chiselMap self) in
    addPoints L a self vs T uninit =
    Some (mkRun L
      (mkChiselMesh L (chunkSize self) (truncationDistScale self) (weighting self)
         (enableCarving self) (carvingDistance self) (chunkResolution self)
         (farClipping self) (rayTruncation self)
         (default (chiselMap self) integrated)
         (projectionIntegrator self) cloud (vertices_ self) (indices_ self))
      [LOGE "got %d points from as pointcloud data" [Z.of_nat (length vs) / 3 / 3]%Z]
      (bool_decide (is_Some integrated))).
Proof.
  intros Hmax.
  assert (Hdiv : (Z.of_nat (length vs) / 3)%Z = Z.of_nat (length vs / 3))
    by (rewrite Nat2Z.inj_div; reflexivity).
  assert (Hle : (3 * (length vs / 3) <= length vs)%nat)
    by (apply Nat.Div0.mul_div_le).
  remember (length vs / 3)%nat as q eqn:Hq.
  destruct (addPoints_loop_spec a vs Hmax q 0 []) as (pts & Hloop & Hlen & Hpts);
    [rewrite Nat.add_0_l; exact Hle|].
  exists pts. split; [exact Hlen|]. split; [exact Hpts|].
  assert (Hq3 : (0 <= Z.of_nat q / 3 <= Z.of_nat q)%Z).
  { split; [apply Z.div_pos; lia|]. apply Z.div_le_upper_bound; lia. }
  unfold addPoints, PointCloud_Clear, int_div. rewrite Hdiv.
  unfold INT_MAX in Hmax.
  rewrite (wrap_int_small (Z.of_nat q)) by lia.
  rewrite Z.quot_div_nonneg by lia.
  rewrite wrap_int_small by lia.
  change 0%Z with (Z.of_nat 0). rewrite Hloop. simpl.
  rewrite copy_transform_all. reflexivity.
Qed.

(** C1.  For every input vector whose length fits an [int] (any buffer
    that arrives from a Java float array) and every pose, [addPoints]
    returns; the point cloud it leaves holds exactly floor(n/3) points,
    point [i] being (input[3i], input[3i+1], input[3i+2]), whatever the
    cloud held before; and the volume is the one the integrator produces
    from that cloud, the pose, and the object's integrator, ray-truncation
    and far-clip settings. *)
Theorem addPoints_clears_and_refills (L : ChiselLib) (a : abi) (self : ChiselMesh L)
    (input : list float) (pose : glm_mat4) (uninit : Transform) :
  (Z.of_nat (length input) <= INT_MAX)%Z ->
  exists run,
    addPoints L a self input pose uninit = Some run /\
    length (lastPointCloud (run_self run)) = (length input / 3)%nat /\
    (forall i, (i < length input / 3)%nat ->
       exists x y z,
         input !! (3 * i)%nat = Some x /\ input !! (3 * i + 1)%nat = Some y /\
         input !! (3 * i + 2)%nat = Some z /\
         lastPointCloud (run_self run) !! i = Some (mkVec3 x y z)) /\
    let integrated :=
      IntegratePointCloud L (projectionIntegrator self) (lastPointCloud (run_self run))
                          pose (rayTruncation self) (farClipping self) (chiselMap self) in
    chiselMap (run_self run) = default (chiselMap self) integrated /\
    run_integrated run = bool_decide (is_Some integrated).
Proof.
  intros Hmax.
  destruct (addPoints_run L a self input pose uninit Hmax) as (cloud & Hlen & Hpts & Hrun).
  eexists. split; [exact Hrun|].
  cbn [run_self lastPointCloud chiselMap run_integrated].
  split; [exact Hlen|]. split; [|split; reflexivity].
  intros i Hi. destruct (Hpts i Hi) as [Heq [p Hp]].
  rewrite Hp in Heq. symmetry in Heq. unfold triple_at in Heq.
  destruct (input !! (3 * i)%nat) as [x|]; [|discriminate].
  destruct (input !! (3 * i + 1)%nat) as [y|]; [|discriminate].
  destruct (input !! (3 * i + 2)%nat) as [z|]; [|discriminate].
  cbn in Heq. injection Heq as <-. exists x, y, z. repeat split. exact Hp.
Qed.

Lemma addPoints_clears_and_refills_witness :
  exists run,
    addPoints Sample.lib LP64 Sample.fresh
      [Sample.one; Sample.two; Sample.three; Sample.zero; Sample.one; Sample.two; Sample.nan]
      Sample.identity Sample.garbage = Some run /\
    lastPointCloud (run_self run) =
      [mkVec3 Sample.one Sample.two Sample.three; mkVec3 Sample.zero Sample.one Sample.two].
Proof.
  destruct (addPoints_clears_and_refills Sample.lib LP64 Sample.fresh
              [Sample.one; Sample.two; Sample.three; Sample.zero; Sample.one; Sample.two;
               Sample.nan]
              Sample.identity Sample.garbage) as (run & Hrun & Hlen & Hpts & _).
  - vm_compute. discriminate.
  - exists run. split; [exact Hrun|].
    destruct (Hpts 0%nat) as (x0 & y0 & z0 & Hx0 & Hy0 & Hz0 & H0); [simpl; lia|].
    destruct (Hpts 1%nat) as (x1 & y1 & z1 & Hx1 & Hy1 & Hz1 & H1); [simpl; lia|].
    simpl in *. simplify_eq.
    destruct (lastPointCloud (run_self run)) as [|p [|q [|]]]; simpl in *; try discriminate.
    by simplify_eq.
Defined.

(** The bound on the length is what [int vertexCount] needs.  A vector
    of 3 x 2^31 floats or a little more, longer than any Java array and
    than any vector of a 32-bit process, would convert to a negative
    count, and the loop body would not run at all. *)
Remark addPoints_count_wraps (L : ChiselLib) (a : abi) (self : ChiselMesh L)
    (vs : list float) (T : glm_mat4) (uninit : Transform) :
  (Z.of_nat (length vs) / 3 = 2 ^ 31)%Z ->
  exists run,
    addPoints L a self vs T uninit = Some run /\ lastPointCloud (run_self run) = [].
Proof.
  intros Hn. unfold addPoints. rewrite Hn.
  change (wrap_int (2 ^ 31)) with (- 2 ^ 31)%Z.
  change (seqZ 0 (- 2 ^ 31)) with (@nil Z).
  simpl. eexists. split; reflexivity.
Qed.

Lemma addPoints_configuration (L : ChiselLib) (a : abi) (self : ChiselMesh L)
    (input : list float) (pose : glm_mat4) (uninit : Transform) (run : AddPointsRun L) :
  addPoints L a self input pose uninit = Some run ->
  configuration (run_self run) = configuration self /\
  projectionIntegrator (run_self run) = projectionIntegrator self /\
  vertices_ (run_self run) = vertices_ self /\
  indices_ (run_self run) = indices_ self.
Proof.
  unfold addPoints.
  destruct (addPoints_loop a input _ _) as [cloud|]; [|discriminate].
  simpl. intros [= <-]. repeat split.
Qed.

(** C3, as the code has it.  [addPoints] validates nothing: a call with
    a malformed input (of a length that fits an [int]) is not rejected.
    The point cloud is replaced by the floor(n/3) leading triples, values
    that are not finite included, the integrator is invoked on that cloud
    and on the pose as given, and the volume is whatever the integrator
    leaves.  Only the configuration is sure to be unchanged. *)
Theorem addPoints_does_not_validate (L : ChiselLib) (a : abi) (self : ChiselMesh L)
    (input : list float) (pose : glm_mat4) (uninit : Transform) :
  malformed input pose = true ->
  (Z.of_nat (length input) <= INT_MAX)%Z ->
  exists run,
    addPoints L a self input pose uninit = Some run /\
    length (lastPointCloud (run_self run)) = (length input / 3)%nat /\
    (forall i, (i < length input / 3)%nat ->
       lastPointCloud (run_self run) !! i = triple_at input i) /\
    chiselMap (run_self run) =
      default (chiselMap self)
        (IntegratePointCloud L (projectionIntegrator self) (lastPointCloud (run_self run))
                             pose (rayTruncation self) (farClipping self) (chiselMap self)) /\
    configuration (run_self run) = configuration self.
Proof.
  intros _ Hmax.
  destruct (addPoints_run L a self input pose uninit Hmax) as (cloud & Hlen & Hpts & Hrun).
  eexists. split; [exact Hrun|].
  cbn [run_self lastPointCloud chiselMap].
  split; [exact Hlen|]. split; [|split; reflexivity].
  intros i Hi. apply (Hpts i Hi).
Qed.

Lemma addPoints_does_not_validate_witness :
  exists run,
    addPoints Sample.lib LP64 Sample.fresh
      [Sample.nan; Sample.one; Sample.two; Sample.three] Sample.identity Sample.garbage
      = Some run /\
    length (lastPointCloud (run_self run)) = 1%nat /\
    configuration (run_self run) = configuration Sample.fresh.
Proof.
  destruct (addPoints_does_not_validate Sample.lib LP64 Sample.fresh
              [Sample.nan; Sample.one; Sample.two; Sample.three]
              Sample.identity Sample.garbage) as (run & Hrun & Hlen & _ & _ & Hcfg).
  - reflexivity.
  - vm_compute. discriminate.
  - exists run. split; [exact Hrun|]. split; [exact Hlen | exact Hcfg].
Defined.

(** C3 fails as stated: from a freshly constructed object, whose point
    cloud is empty, a call with four floats (not a multiple of 3) and a
    call with a NaN coordinate both return normally and leave a
    different point cloud behind. *)
Lemma addPoints_malformed_counterexample :
  lastPointCloud Sample.fresh = [] /\
  (malformed [Sample.one; Sample.two; Sample.three; Sample.zero] Sample.identity = true /\
   exists run,
     addPoints Sample.lib LP64 Sample.fresh
       [Sample.one; Sample.two; Sample.three; Sample.zero] Sample.identity Sample.garbage
       = Some run /\
     lastPointCloud (run_self run) = [mkVec3 Sample.one Sample.two Sample.three]) /\
  (malformed [Sample.nan; Sample.one; Sample.two] Sample.identity = true /\
   exists run,
     addPoints Sample.lib LP64 Sample.fresh
       [Sample.nan; Sample.one; Sample.two] Sample.identity Sample.garbage
       = Some run /\
     lastPointCloud (run_self run) = [mkVec3 Sample.nan Sample.one Sample.two]).
Proof.
  split; [reflexivity|]. split.
  - split; [reflexivity|]. eexists. split; reflexivity.
  - split; [reflexivity|]. eexists. split; reflexivity.
Qed.

(** C8.  The diagnostic written by [addPoints] carries
    floor(floor(n/3)/3), while the number of points added is floor(n/3);
    the two differ as soon as there is a point at all. *)
Theorem addPoints_logs_a_ninth (L : ChiselLib) (a : abi) (self : ChiselMesh L)
    (input : list float) (pose : glm_mat4) (uninit : Transform) :
  (Z.of_nat (length input) <= INT_MAX)%Z ->
  exists run,
    addPoints L a self input pose uninit = Some run /\
    run_log run =
      [LOGE "got %d points from as pointcloud data" [Z.of_nat (length input) / 3 / 3]%Z] /\
    Z.of_nat (length (lastPointCloud (run_self run))) = (Z.of_nat (length input) / 3)%Z /\
    ((3 <= length input)%nat ->
     (Z.of_nat (length input) / 3 / 3 < Z.of_nat (length input) / 3)%Z).
Proof.
  intros Hmax.
  destruct (addPoints_run L a self input pose uninit Hmax) as (cloud & Hlen & _ & Hrun).
  eexists. split; [exact Hrun|].
  cbn [run_self run_log lastPointCloud].
  split; [reflexivity|]. split.
  - change (length cloud = (length input / 3)%nat) in Hlen.
    rewrite Hlen, Nat2Z.inj_div. reflexivity.
  - intros H3.
    assert (1 <= Z.of_nat (length input) / 3)%Z by (apply Z.div_le_lower_bound; lia).
    apply Z.div_lt_upper_bound; lia.
Qed.

Lemma addPoints_logs_a_ninth_witness :
  exists run,
    addPoints Sample.lib ILP32 Sample.fresh
      (replicate 12 Sample.one) Sample.identity Sample.garbage = Some run /\
    run_log run = [LOGE "got %d points from as pointcloud data" [1%Z]] /\
    Z.of_nat (length (lastPointCloud (run_self run))) = 4%Z.
Proof.
  destruct (addPoints_logs_a_ninth Sample.lib ILP32 Sample.fresh
              (replicate 12 Sample.one) Sample.identity Sample.garbage)
    as (run & Hrun & Hlog & Hlen & _).
  - vm_compute. discriminate.
  - exists run. split; [exact Hrun|]. split; [exact Hlog | exact Hlen].
Defined.

(** [extrinsic] is default-constructed and then overwritten entry by
    entry, so nothing of what it held at first reaches the integrator
    or the result. *)
Remark addPoints_ignores_uninitialised_transform (L : ChiselLib) (a : abi)
    (self : ChiselMesh L) (input : list float) (pose : glm_mat4)
    (uninit1 uninit2 : Transform) :
  addPoints L a self input pose uninit1 = addPoints L a self input pose uninit2.
Proof.
  unfold addPoints. rewrite !copy_transform_all. reflexivity.
Qed.

(** ** [updateVertices] *)

Lemma Mesh_wf_cons (a : abi) (vs : list Vec3) (i : Z) (ixs : list Z) :
  Mesh_wf a (mkMesh vs (i :: ixs)) = true ->
  (0 <= i < Z.of_nat (length vs))%Z /\ (i < 2 ^ size_bits a)%Z /\
  Mesh_wf a (mkMesh vs ixs) = true.
Proof.
  unfold Mesh_wf. simpl. rewrite !andb_true_iff.
  intros [[[H0 H1] H2] H3]. repeat split; try lia. exact H3.
Qed.

Lemma updateVertices_body_spec (a : abi) (m : Mesh) (acc : list float * list Z) (index : Z) :
  (0 <= index < Z.of_nat (length (vertices m)))%Z ->
  (index < 2 ^ size_bits a)%Z ->
  exists v,
    vertices m !! Z.to_nat index = Some v /\
    updateVertices_body a m acc index = Some (acc.1 ++ xyz v, acc.2 ++ stored_entries index).
Proof.
  intros Hrange Hsize.
  destruct (lookup_lt_is_Some_2 (vertices m) (Z.to_nat index)) as [v Hv]; [lia|].
  exists v. split; [exact Hv|].
  unfold updateVertices_body, vector_at, wrap_size.
  rewrite Z.mod_small by lia. rewrite Hv. simpl.
  rewrite (to_GLushort_index a index 1), (to_GLushort_index a index 2), to_GLushort_index0.
  unfold xyz, stored_entries. rewrite <- !app_assoc. reflexivity.
Qed.

Lemma updateVertices_inner_spec (a : abi) (vs : list Vec3) (ixs : list Z) :
  forall acc,
    Mesh_wf a (mkMesh vs ixs) = true ->
    updateVertices_inner a (mkMesh vs ixs) ixs acc =
      Some (acc.1 ++ flat_map xyz (omap (fun i => vs !! Z.to_nat i) ixs),
            acc.2 ++ flat_map stored_entries ixs) /\
    length (omap (fun i => vs !! Z.to_nat i) ixs) = length ixs.
Proof.
  assert (Hgen : forall m ixs' acc,
    vertices m = vs -> Mesh_wf a (mkMesh vs ixs') = true ->
    updateVertices_inner a m ixs' acc =
      Some (acc.1 ++ flat_map xyz (omap (fun i => vs !! Z.to_nat i) ixs'),
            acc.2 ++ flat_map stored_entries ixs') /\
    length (omap (fun i => vs !! Z.to_nat i) ixs') = length ixs').
  { intros m ixs'. induction ixs' as [|i ixs' IH]; intros acc Hm Hwf.
    - simpl. rewrite !app_nil_r. by destruct acc.
    - apply Mesh_wf_cons in Hwf as (Hi & Hsz & Hwf).
      destruct (updateVertices_body_spec a m acc i) as (v & Hv & Hbody);
        [by rewrite Hm | exact Hsz |].
      simpl updateVertices_inner. rewrite Hbody. simpl.
      destruct (IH (acc.1 ++ xyz v, acc.2 ++ stored_entries i) Hm Hwf) as [Hrec Hlen].
      rewrite Hrec. rewrite Hm in Hv. rewrite Hv. simpl.
      rewrite <- !app_assoc. split; [reflexivity|]. f_equal. exact Hlen. }
  intros acc Hwf. by apply Hgen.
Qed.

Lemma updateVertices_outer_spec (a : abi) (meshMap : MeshMap) :
  forall acc,
    MeshMap_wf a meshMap = true ->
    updateVertices_outer a meshMap acc =
      Some (acc.1 ++ flat_map xyz (indexed_vertices meshMap),
            acc.2 ++ flat_map stored_entries (all_indices meshMap)) /\
    length (indexed_vertices meshMap) = length (all_indices meshMap).
Proof.
  induction meshMap as [|[id [vs ixs]] rest IH]; intros acc Hwf.
  - simpl. rewrite !app_nil_r. by destruct acc.
  - unfold MeshMap_wf in Hwf. simpl in Hwf. apply andb_true_iff in Hwf as [Hm Hrest].
    destruct (updateVertices_inner_spec a vs ixs acc Hm) as [Hinner Hlen].
    simpl updateVertices_outer. simpl indices. rewrite Hinner. simpl.
    destruct (IH (acc.1 ++ flat_map xyz (omap (fun i => vs !! Z.to_nat i) ixs),
                  acc.2 ++ flat_map stored_entries ixs) Hrest) as [Hrec Hlen'].
    rewrite Hrec. unfold indexed_vertices, all_indices in *. simpl.
    rewrite !flat_map_app, <- !app_assoc, !length_app.
    split; [reflexivity|]. by rewrite Hlen, Hlen'.
Qed.

Lemma length_flat_map_xyz (vs : list Vec3) :
  length (flat_map xyz vs) = (3 * length vs)%nat.
Proof. induction vs as [|v vs IH]; simpl; lia. Qed.

Lemma length_flat_map_stored (ixs : list Z) :
  length (flat_map stored_entries ixs) = (3 * length ixs)%nat.
Proof. induction ixs as [|i ixs IH]; simpl; lia. Qed.

(** The complete effect of [updateVertices] on a well-formed mesh map. *)
Lemma updateVertices_run (L : ChiselLib) (a : abi) (self : ChiselMesh L) :
  let remeshed := UpdateMeshes L (chiselMap self) in
  let meshMap := GetAllMeshes L remeshed in
  MeshMap_wf a meshMap = true ->
  length (indexed_vertices meshMap) = length (all_indices meshMap) /\
  updateVertices L a self =
    Some (SetVertices L (with_chiselMap L self remeshed)
            (flat_map xyz (indexed_vertices meshMap))
            (flat_map stored_entries (all_indices meshMap)),
          [LOGI "Generating Mesh ..." [];
           LOGI "Map with %d items" [Z.of_nat (length meshMap)];
           LOGI "Got %d polygons"
                [Z.of_nat (length (flat_map xyz (indexed_vertices meshMap))) / 3]%Z]).
Proof.
  intros remeshed meshMap Hwf.
  destruct (updateVertices_outer_spec a meshMap ([], []) Hwf) as [Houter Hlen].
  split; [exact Hlen|].
  unfold updateVertices. cbn [chiselMap with_chiselMap].
  fold remeshed. fold meshMap. rewrite Houter. reflexivity.
Qed.

(** Facts about the sample volume with the large chunk mesh. *)
Lemma remesh_no_chunks (extract : gmap ChunkID (gmap (Z * Z * Z) Volume.Voxel) -> ChunkID -> Mesh)
    (e : Z * Z * Z) (r : R) (id : ChunkID) (m : Mesh) :
  GetAllMeshes (Volume.lib extract)
    (UpdateMeshes (Volume.lib extract) (Volume.mkChunkManager e r ∅ {[ id := m ]}))
  = [(id, m)].
Proof.
  simpl. unfold Volume.remesh. simpl.
  rewrite map_imap_empty, (left_id_L ∅ (∪)).
  apply map_to_list_singleton.
Qed.

Lemma bigMesh_map :
  GetAllMeshes Sample.lib (UpdateMeshes Sample.lib (chiselMap Sample.withBigMesh))
  = [((0, 0, 0)%Z, Sample.bigMesh)].
Proof. apply remesh_no_chunks. Qed.

Lemma bigMesh_wf (a : abi) : Mesh_wf a Sample.bigMesh = true.
Proof.
  unfold Mesh_wf, Sample.bigMesh. cbn [indices vertices forallb].
  rewrite length_replicate, Z2Nat.id by lia.
  destruct a; reflexivity.
Qed.

(** C2, as the code has it.  On a well-formed mesh map [updateVertices]
    returns; for each index [i] of each chunk mesh, in visiting order, it
    appends the x, y, z of the indexed vertex to the vertex buffer and
    the three entries 3i, 3i+1, 3i+2, each reduced modulo 65536 by the
    16-bit element type, to the index buffer.  The index buffer length
    is a multiple of 3 and equals the vertex buffer length; while every
    index is below 21845 the entries are 3i, 3i+1, 3i+2 themselves. *)
Theorem updateVertices_buffers (L : ChiselLib) (a : abi) (self : ChiselMesh L) :
  let meshMap := GetAllMeshes L (UpdateMeshes L (chiselMap self)) in
  MeshMap_wf a meshMap = true ->
  exists self' log,
    updateVertices L a self = Some (self', log) /\
    length (indexed_vertices meshMap) = length (all_indices meshMap) /\
    vertices_ self' = flat_map xyz (indexed_vertices meshMap) /\
    indices_ self' = flat_map stored_entries (all_indices meshMap) /\
    (length (indices_ self') mod 3 = 0)%nat /\
    length (indices_ self') = length (vertices_ self') /\
    (Forall (fun i => (0 <= i < 21845)%Z) (all_indices meshMap) ->
     indices_ self' = flat_map (fun i => [3 * i; 3 * i + 1; 3 * i + 2]%Z) (all_indices meshMap)).
Proof.
  intros meshMap Hwf.
  destruct (updateVertices_run L a self Hwf) as [Hlen Hrun].
  fold meshMap in Hlen, Hrun.
  eexists _, _. split; [exact Hrun|].
  cbn [SetVertices vertices_ indices_].
  split; [exact Hlen|]. split; [reflexivity|]. split; [reflexivity|].
  rewrite length_flat_map_stored, length_flat_map_xyz, Hlen.
  split; [|split; [reflexivity|]].
  - rewrite Nat.mul_comm. apply Nat.Div0.mod_mul.
  - clear. generalize (all_indices meshMap). intros ixs Hsmall.
    induction Hsmall as [|i ixs Hi _ IH]; [reflexivity|].
    simpl. rewrite IH. unfold stored_entries.
    rewrite !Z.mod_small by lia. reflexivity.
Qed.

Lemma updateVertices_buffers_witness :
  exists self' log,
    updateVertices Sample.lib LP64 Sample.withTwoTriangles = Some (self', log) /\
    length (indices_ self') = 18%nat /\
    length (vertices_ self') = 18%nat.
Proof.
  destruct (updateVertices_buffers Sample.lib LP64 Sample.withTwoTriangles)
    as (self' & log & Hrun & _ & Hv & Hi & _).
  - vm_compute. reflexivity.
  - exists self', log. split; [exact Hrun|]. rewrite Hv, Hi. split; vm_compute; reflexivity.
Defined.

(** C2 fails as stated: for the chunk mesh whose single index is 21845
    the index buffer receives 65535, 0, 1 and not 65535, 65536, 65537. *)
Lemma updateVertices_entries_counterexample :
  GetAllMeshes Sample.lib (UpdateMeshes Sample.lib (chiselMap Sample.withBigMesh))
    = [((0, 0, 0)%Z, Sample.bigMesh)] /\
  indices Sample.bigMesh = [21845%Z] /\
  exists self' log,
    updateVertices Sample.lib LP64 Sample.withBigMesh = Some (self', log) /\
    indices_ self' = [65535; 0; 1]%Z /\
    indices_ self' <> [3 * 21845; 3 * 21845 + 1; 3 * 21845 + 2]%Z.
Proof.
  split; [exact bigMesh_map|]. split; [reflexivity|].
  destruct (updateVertices_run Sample.lib LP64 Sample.withBigMesh) as [_ Hrun].
  - rewrite bigMesh_map. unfold MeshMap_wf. cbn [forallb snd].
    by rewrite bigMesh_wf.
  - eexists _, _. split; [exact Hrun|].
    cbn [SetVertices indices_]. rewrite bigMesh_map.
    split; [reflexivity | discriminate].
Qed.

(** C10.  The index buffer holds 16-bit unsigned values: on a
    well-formed mesh map [updateVertices] returns normally, every stored
    entry is (3i + k) mod 65536 for its index [i] and k in 0, 1, 2, and
    lies below 65536; for an index i >= 21845 the entries for k = 1 and
    k = 2 differ from 3i + 1 and 3i + 2, on either ABI. *)
Theorem updateVertices_indices_wrap (L : ChiselLib) (a : abi) (self : ChiselMesh L) :
  let meshMap := GetAllMeshes L (UpdateMeshes L (chiselMap self)) in
  MeshMap_wf a meshMap = true ->
  exists self' log,
    updateVertices L a self = Some (self', log) /\
    indices_ self' = flat_map stored_entries (all_indices meshMap) /\
    (forall (p : nat) (i k : Z),
       all_indices meshMap !! p = Some i -> (0 <= k < 3)%Z ->
       indices_ self' !! (3 * p + Z.to_nat k)%nat = Some ((3 * i + k) mod 65536)%Z) /\
    Forall (fun e => (0 <= e < 65536)%Z) (indices_ self') /\
    (forall i, In i (all_indices meshMap) -> (21845 <= i)%Z ->
       ((3 * i + 1) mod 65536 <> 3 * i + 1)%Z /\ ((3 * i + 2) mod 65536 <> 3 * i + 2)%Z).
Proof.
  intros meshMap Hwf.
  destruct (updateVertices_run L a self Hwf) as [_ Hrun].
  fold meshMap in Hrun.
  eexists _, _. split; [exact Hrun|].
  cbn [SetVertices indices_].
  split; [reflexivity|]. split; [|split].
  - generalize (all_indices meshMap). intros ixs.
    induction ixs as [|j ixs IH]; intros p i k Hp Hk; [discriminate|].
    destruct p as [|p].
    + injection Hp as ->.
      assert (Hcases : (k = 0 \/ k = 1 \/ k = 2)%Z) by lia.
      destruct Hcases as [-> | [-> | ->]]; simpl; rewrite ?Z.add_0_r; reflexivity.
    + replace (3 * S p + Z.to_nat k)%nat with (S (S (S (3 * p + Z.to_nat k)))) by lia.
      simpl. apply IH; assumption.
  - apply List.Forall_forall. intros e He. apply in_flat_map in He as (i & _ & He).
    unfold stored_entries in He. simpl in He.
    destruct He as [<- | [<- | [<- | []]]]; apply Z.mod_pos_bound; lia.
  - intros i _ Hi. split; intros Heq.
    + pose proof (Z.mod_pos_bound (3 * i + 1) 65536). lia.
    + pose proof (Z.mod_pos_bound (3 * i + 2) 65536). lia.
Qed.

Lemma updateVertices_indices_wrap_witness :
  exists self' log,
    updateVertices Sample.lib ILP32 Sample.withBigMesh = Some (self', log) /\
    indices_ self' = [65535; 0; 1]%Z.
Proof.
  destruct (updateVertices_indices_wrap Sample.lib ILP32 Sample.withBigMesh)
    as (self' & log & Hrun & Hix & _).
  - rewrite bigMesh_map. unfold MeshMap_wf. cbn [forallb snd].
    by rewrite bigMesh_wf.
  - exists self', log. split; [exact Hrun|]. rewrite Hix, bigMesh_map. reflexivity.
Defined.

(** ** The configuration *)

Lemma updateVertices_configuration (L : ChiselLib) (a : abi) (self self' : ChiselMesh L)
    (log : list LogEntry) :
  updateVertices L a self = Some (self', log) ->
  configuration self' = configuration self /\
  projectionIntegrator self' = projectionIntegrator self /\
  lastPointCloud self' = lastPointCloud self.
Proof.
  unfold updateVertices.
  destruct (updateVertices_outer a _ _) as [[mesh ixs]|]; [|discriminate].
  simpl. intros [= <- _]. repeat split.
Qed.

Lemma perform_configuration (L : ChiselLib) (self self' : ChiselMesh L) (c : call) :
  perform L self c = Some self' ->
  configuration self' = configuration self /\
  projectionIntegrator self' = projectionIntegrator self.
Proof.
  destruct c as [a input pose uninit | a]; simpl.
  - destruct (addPoints L a self input pose uninit) as [run|] eqn:Hrun; [|discriminate].
    simpl. intros [= <-].
    destruct (addPoints_configuration L a self input pose uninit run Hrun) as (H1 & H2 & _).
    by split.
  - destruct (updateVertices L a self) as [[self1 log]|] eqn:Hrun; [|discriminate].
    simpl. intros [= <-].
    destruct (updateVertices_configuration L a self self1 log Hrun) as (H1 & H2 & _).
    by split.
Qed.

(** C7.  The constructor sets the eight configuration constants (chunk
    size 16, truncation scale 8.0, weight 1.0, carving on, carving
    distance 0.5, resolution 0.06, far clip 2.0, ray truncation 0.5),
    and no sequence of [addPoints] and [updateVertices] calls changes
    any of them, nor the copies the integrator object holds. *)
Theorem configuration_fixed_at_construction (L : ChiselLib) :
  (forall cloud, configuration (ChiselMesh_new L cloud)
    = (16%Z, 8.0%Q, 1.0%Q, true, 0.5%Q, 0.06%Q, 2.0%Q, 0.5%Q)) /\
  forall (calls : list call) (self self' : ChiselMesh L),
    performAll L calls self = Some self' ->
    configuration self' = configuration self /\
    projectionIntegrator self' = projectionIntegrator self.
Proof.
  split; [reflexivity|].
  induction calls as [|c calls IH]; intros self self' Hrun.
  - injection Hrun as <-. by split.
  - simpl in Hrun.
    destruct (perform L self c) as [self1|] eqn:Hc; [|discriminate].
    simpl in Hrun.
    destruct (perform_configuration L self self1 c Hc) as [H1 H2].
    destruct (IH self1 self' Hrun) as [H3 H4].
    split; congruence.
Qed.

Lemma configuration_fixed_at_construction_witness :
  exists self',
    performAll Sample.lib
      [UpdateVertices LP64;
       AddPoints LP64 [Sample.one; Sample.two; Sample.three] Sample.identity Sample.garbage]
      Sample.fresh = Some self' /\
    configuration self' = (16%Z, 8.0%Q, 1.0%Q, true, 0.5%Q, 0.06%Q, 2.0%Q, 0.5%Q).
Proof.
  destruct (configuration_fixed_at_construction Sample.lib) as [Hnew Hcalls].
  eexists. split; [reflexivity|].
  rewrite <- (Hnew []).
  refine (proj1 (Hcalls
    [UpdateVertices LP64;
     AddPoints LP64 [Sample.one; Sample.two; Sample.three] Sample.identity Sample.garbage]
    Sample.fresh _ eq_refl)).
Defined.

(** ** Re-extraction *)

Section Reextraction.

Context (extractSurface : gmap ChunkID (gmap (Z * Z * Z) Volume.Voxel) -> ChunkID -> Mesh).

Lemma remesh_idempotent (cm : Volume.ChunkManager) :
  Volume.remesh extractSurface (Volume.remesh extractSurface cm)
  = Volume.remesh extractSurface cm.
Proof.
  unfold Volume.remesh. cbn [Volume.chunks Volume.allMeshes Volume.edge Volume.resolution].
  f_equal.
  - apply map_eq. intros id. rewrite !lookup_fmap.
    by destruct (Volume.chunks cm !! id).
  - assert (Hnone :
      map_imap (fun id c =>
          if Volume.needsRemesh c
          then Some (extractSurface (Volume.voxels <$> (Volume.markClean <$> Volume.chunks cm)) id)
          else None)
        (Volume.markClean <$> Volume.chunks cm) = (∅ : gmap ChunkID Mesh)).
    { apply map_eq. intros id. rewrite map_lookup_imap, lookup_fmap, lookup_empty.
      by destruct (Volume.chunks cm !! id). }
    rewrite Hnone. apply (left_id_L ∅ (∪)).
Qed.

End Reextraction.

(** Whenever remeshing twice is remeshing once, a second
    [updateVertices] repeats the first. *)
Lemma updateVertices_again (L : ChiselLib) (a : abi) (self self1 : ChiselMesh L)
    (log1 : list LogEntry) :
  UpdateMeshes L (UpdateMeshes L (chiselMap self)) = UpdateMeshes L (chiselMap self) ->
  updateVertices L a self = Some (self1, log1) ->
  updateVertices L a self1 = Some (self1, log1).
Proof.
  intros Hidem. unfold updateVertices.
  cbn [chiselMap with_chiselMap].
  destruct (updateVertices_outer a (GetAllMeshes L (UpdateMeshes L (chiselMap self))) ([], []))
    as [[mesh ixs]|] eqn:Houter; [|discriminate].
  simpl. intros [= <- <-].
  cbn [chiselMap SetVertices with_chiselMap].
  rewrite Hidem, Houter. reflexivity.
Qed.

(** C4.  With the volume of the spec behind the facade, a call of
    [updateVertices] that follows another with no [addPoints] in
    between returns and leaves the same vertex and index buffers
    (indeed the same object and the same diagnostics). *)
Theorem updateVertices_twice_same_buffers
    (extractSurface : gmap ChunkID (gmap (Z * Z * Z) Volume.Voxel) -> ChunkID -> Mesh)
    (a : abi) (self self1 : ChiselMesh (Volume.lib extractSurface)) (log1 : list LogEntry) :
  updateVertices (Volume.lib extractSurface) a self = Some (self1, log1) ->
  exists self2 log2,
    updateVertices (Volume.lib extractSurface) a self1 = Some (self2, log2) /\
    vertices_ self2 = vertices_ self1 /\
    indices_ self2 = indices_ self1 /\
    self2 = self1 /\ log2 = log1.
Proof.
  intros Hrun.
  exists self1, log1. split; [|repeat split].
  apply (updateVertices_again (Volume.lib extractSurface) a self self1 log1); [|exact Hrun].
  apply remesh_idempotent.
Qed.

Lemma updateVertices_twice_same_buffers_witness :
  exists self1 log1 self2 log2,
    updateVertices Sample.lib LP64 Sample.withTwoTriangles = Some (self1, log1) /\
    updateVertices Sample.lib LP64 self1 = Some (self2, log2) /\
    vertices_ self2 = vertices_ self1 /\
    indices_ self2 = indices_ self1 /\
    length (indices_ self1) = 18%nat.
Proof.
  destruct (updateVertices_run Sample.lib LP64 Sample.withTwoTriangles) as [_ Hrun1];
    [vm_compute; reflexivity|].
  destruct (updateVertices_twice_same_buffers Sample.noSurface LP64
              Sample.withTwoTriangles _ _ Hrun1)
    as (self2 & log2 & Hrun2 & Hv & Hi & _).
  eexists _, _, self2, log2.
  split; [exact Hrun1|]. split; [exact Hrun2|].
  split; [exact Hv|]. split; [exact Hi|].
  vm_compute. reflexivity.
Defined.

(** ** The projection integrator *)

Section Integrator.

Import Volume.
Local Open Scope R_scope.

Lemma Int_part_nonneg (x : R) : 0 <= x -> (0 <= Int_part x)%Z.
Proof.
  intros Hx. destruct (base_Int_part x) as [_ Hlow].
  assert (H : IZR (-1) < IZR (Int_part x)) by (simpl; lra).
  apply lt_IZR in H. lia.
Qed.

Lemma sampleDistances_bounds (res range rt t : R) :
  0 < res -> 0 <= range + rt ->
  In t (sampleDistances res range rt) -> 0 <= t <= range + rt.
Proof.
  intros Hres Hlen Hin. unfold sampleDistances in Hin.
  apply in_map_iff in Hin as (k & <- & Hk). apply in_seq in Hk.
  assert (Hx : 0 <= (range + rt) / res).
  { apply Rmult_le_pos; [lra|]. left. by apply Rinv_0_lt_compat. }
  pose proof (Int_part_nonneg _ Hx) as Hn.
  destruct (base_Int_part ((range + rt) / res)) as [Hup _].
  assert (Hk' : INR k <= IZR (Int_part ((range + rt) / res))).
  { rewrite INR_IZR_INZ. apply IZR_le. lia. }
  split.
  - apply Rmult_le_pos; [apply pos_INR | lra].
  - replace (range + rt) with ((range + rt) / res * res) by (field; lra).
    apply Rmult_le_compat_r; lra.
Qed.

Lemma sampleDistances_first (res range rt : R) :
  exists rest, sampleDistances res range rt = (0 * res) :: rest.
Proof.
  unfold sampleDistances. simpl. eexists. reflexivity.
Qed.

Lemma rayPoint_start (origin world : Point3) (range res : R) :
  rayPoint origin world range (0 * res) = origin.
Proof.
  destruct origin as [ox oy oz]. unfold rayPoint. simpl.
  f_equal; unfold Rdiv; ring.
Qed.

(** A sample inside the truncation band merges into the voxel it
    touches and leaves every other voxel as it was. *)
Lemma integrateSample_in_band (T : Tuning) (origin world : Point3) (range t : R)
    (cm : ChunkManager) (id : ChunkID) (off : Z * Z * Z) :
  Rabs (t - range) <= halfWidth T ->
  let p := rayPoint origin world range t in
  let cm' := integrateSample T origin world range cm t in
  edge cm' = edge cm /\ resolution cm' = resolution cm /\
  voxelAt cm' id off =
    if decide (id = chunkOf (edge cm) (resolution cm) p /\
               off = offsetOf (edge cm) (resolution cm) p)
    then mergeSample (voxelAt cm id off) (t - range) (sampleWeight T)
    else voxelAt cm id off.
Proof.
  intros Hband p cm'. subst cm'. unfold integrateSample, updateVoxel. fold p.
  destruct (Rle_dec (Rabs (t - range)) (halfWidth T)) as [_|Hn]; [|contradiction].
  split; [reflexivity|]. split; [reflexivity|].
  unfold voxelAt, getOrCreateChunk, putChunk. cbn [chunks].
  destruct (decide (id = chunkOf (edge cm) (resolution cm) p)) as [->|Hid].
  - rewrite lookup_insert_eq. simpl.
    destruct (decide (off = offsetOf (edge cm) (resolution cm) p)) as [->|Hoff].
    + rewrite lookup_insert_eq. rewrite decide_True by done. reflexivity.
    + rewrite lookup_insert_ne by done. rewrite decide_False by tauto. reflexivity.
  - rewrite lookup_insert_ne by done. rewrite decide_False by tauto. reflexivity.
Qed.

Lemma integrateSample_weight_mono (T : Tuning) (origin world : Point3) (range t : R)
    (cm : ChunkManager) (id : ChunkID) (off : Z * Z * Z) :
  Rabs (t - range) <= halfWidth T -> 0 <= sampleWeight T ->
  weight (voxelAt cm id off)
    <= weight (voxelAt (integrateSample T origin world range cm t) id off).
Proof.
  intros Hband Hw.
  destruct (integrateSample_in_band T origin world range t cm id off Hband) as (_ & _ & ->).
  case_decide; simpl; lra.
Qed.

Lemma integrateSamples_weight_mono (T : Tuning) (origin world : Point3) (range : R)
    (ts : list R) :
  0 <= sampleWeight T ->
  Forall (fun t => Rabs (t - range) <= halfWidth T) ts ->
  forall (cm : ChunkManager) (id : ChunkID) (off : Z * Z * Z),
    weight (voxelAt cm id off)
      <= weight (voxelAt (fold_left (integrateSample T origin world range) ts cm) id off).
Proof.
  intros Hw Hts. induction Hts as [|t ts Ht _ IH]; intros cm id off; simpl.
  - lra.
  - eapply Rle_trans; [|apply IH].
    by apply integrateSample_weight_mono.
Qed.

Lemma integratePoint_skips_far (T : Tuning) (origin world : Point3) (cm : ChunkManager) :
  farClip T < distance origin world -> integratePoint T origin world cm = cm.
Proof.
  intros Hfar. unfold integratePoint.
  destruct (Rlt_dec (farClip T) (distance origin world)); [reflexivity | contradiction].
Qed.

Lemma integratePoint_skips_zero_length (T : Tuning) (origin world : Point3) (cm : ChunkManager) :
  distance origin world <= 0 -> integratePoint T origin world cm = cm.
Proof.
  intros Hzero. unfold integratePoint.
  destruct (Rlt_dec (farClip T) (distance origin world)); [reflexivity|].
  destruct (Rle_dec (distance origin world) 0); [reflexivity | contradiction].
Qed.

Lemma integrate_app {C} (pi : ProjectionIntegrator C) (before after : PointCloud)
    (pose : Transform) (rt fc : Q) (cm : ChunkManager) :
  integrate pi (before ++ after) pose rt fc cm
  = (integrate pi before pose rt fc cm ≫= integrate pi after pose rt fc).
Proof.
  unfold integrate. rewrite forallb_app, fold_left_app.
  destruct (forallb Vec3_finite before), (forallb Vec3_finite after),
    (Transform_finite pose); reflexivity.
Qed.

(** A far point can be dropped from the cloud without changing the
    outcome of the integration. *)
Lemma integrate_skips_far_point {C} (pi : ProjectionIntegrator C)
    (before after : PointCloud) (p : Vec3) (pose : Transform) (rt fc : Q)
    (cm : ChunkManager) :
  Vec3_finite p = true ->
  Q2R fc < distance (sensorOrigin pose) (toWorld pose (Vec3_to_Point3 p)) ->
  integrate pi (before ++ p :: after) pose rt fc cm
  = integrate pi (before ++ after) pose rt fc cm.
Proof.
  intros Hfin Hfar. rewrite !integrate_app.
  destruct (integrate pi before pose rt fc cm) as [cm1|] eqn:Hbefore; simpl;
    [|reflexivity].
  assert (Hpose : Transform_finite pose = true).
  { unfold integrate in Hbefore.
    destruct (Transform_finite pose); [reflexivity|].
    rewrite andb_false_r in Hbefore. discriminate. }
  change (p :: after) with ([p] ++ after). rewrite integrate_app.
  assert (Hskip : integrate pi [p] pose rt fc cm1 = Some cm1).
  { unfold integrate. simpl. rewrite Hfin, Hpose. simpl.
    f_equal. apply integratePoint_skips_far. exact Hfar. }
  rewrite Hskip. reflexivity.
Qed.

(** A point within the far-clip distance and away from the sensor is
    walked, and the first sample of the walk, at the sensor itself,
    lands inside the truncation band as soon as the half-width covers
    the far-clip and ray-truncation distances. *)
Lemma integratePoint_affects_origin_voxel (T : Tuning) (origin world : Point3)
    (cm : ChunkManager) :
  0 < resolution cm -> 0 < sampleWeight T ->
  0 <= rayTrunc T <= halfWidth T -> farClip T <= halfWidth T ->
  0 < distance origin world <= farClip T ->
  let id := chunkOf (edge cm) (resolution cm) origin in
  let off := offsetOf (edge cm) (resolution cm) origin in
  weight (voxelAt cm id off) + sampleWeight T
    <= weight (voxelAt (integratePoint T origin world cm) id off).
Proof.
  intros Hres Hw [Hrt0 Hrt] Hfc [Hpos Hclip] id off.
  unfold integratePoint.
  destruct (Rlt_dec (farClip T) (distance origin world)) as [Hlt|_]; [lra|].
  destruct (Rle_dec (distance origin world) 0) as [Hle|_]; [lra|].
  set (range := distance origin world) in *.
  assert (Hband : Forall (fun t => Rabs (t - range) <= halfWidth T)
                         (sampleDistances (resolution cm) range (rayTrunc T))).
  { apply List.Forall_forall. intros t Ht.
    apply sampleDistances_bounds in Ht; [|lra|lra].
    apply Rabs_le. lra. }
  destruct (sampleDistances_first (resolution cm) range (rayTrunc T)) as [rest Hfirst].
  rewrite Hfirst in Hband |- *. inversion Hband as [|t0 ts Ht0 Hrest]; subst.
  simpl fold_left.
  eapply Rle_trans; [|apply integrateSamples_weight_mono; [lra | exact Hrest]].
  destruct (integrateSample_in_band T origin world range (0 * resolution cm) cm id off Ht0)
    as (_ & _ & ->).
  rewrite rayPoint_start, decide_True by done.
  simpl. lra.
Qed.

Lemma configuredTuning_values (L : ChiselLib) :
  halfWidth (configuredTuning L) = 8 /\ sampleWeight (configuredTuning L) = 1 /\
  carveDist (configuredTuning L) = 1 / 2 /\ rayTrunc (configuredTuning L) = 1 / 2 /\
  farClip (configuredTuning L) = 2.
Proof. unfold configuredTuning, tuningOf, Q2R. simpl. repeat split; lra. Qed.

(** C5, as the spec has it.  For the tuning the facade configures, whose
    far-clip distance is 2.0: a point whose range exceeds the far-clip
    distance is skipped, the chunk store is left exactly as it was, and
    integrating a cloud gives the same store with or without that
    point; a point at a range above zero and at most the far-clip
    distance does affect voxels, the voxel holding the sensor origin
    gaining one sample weight or more. *)
Theorem far_clip_boundary (L : ChiselLib) (origin world : Point3) (cm : ChunkManager) :
  farClip (configuredTuning L) = 2 /\
  (farClip (configuredTuning L) < distance origin world ->
   integratePoint (configuredTuning L) origin world cm = cm) /\
  (forall (before after : PointCloud) (p : Vec3) (pose : Transform),
     Vec3_finite p = true ->
     farClip (configuredTuning L)
       < distance (sensorOrigin pose) (toWorld pose (Vec3_to_Point3 p)) ->
     let self := ChiselMesh_new L [] in
     integrate (projectionIntegrator self) (before ++ p :: after) pose
               (rayTruncation self) (farClipping self) cm
     = integrate (projectionIntegrator self) (before ++ after) pose
                 (rayTruncation self) (farClipping self) cm) /\
  (0 < resolution cm ->
   0 < distance origin world <= farClip (configuredTuning L) ->
   let id := chunkOf (edge cm) (resolution cm) origin in
   let off := offsetOf (edge cm) (resolution cm) origin in
   weight (voxelAt cm id off) + sampleWeight (configuredTuning L)
     <= weight (voxelAt (integratePoint (configuredTuning L) origin world cm) id off)).
Proof.
  destruct (configuredTuning_values L) as (Hh & Hw & _ & Hrt & Hfc).
  split; [exact Hfc|]. split; [apply integratePoint_skips_far|]. split.
  - intros before after p pose Hfin Hfar self.
    apply integrate_skips_far_point; assumption.
  - intros Hres Hrange.
    apply integratePoint_affects_origin_voxel; try assumption.
    + rewrite Hw. lra.
    + rewrite Hrt, Hh. lra.
    + rewrite Hfc, Hh. lra.
Qed.

Lemma distance_on_z_axis (z : R) :
  0 <= z -> distance (mkPoint3 0 0 0) (mkPoint3 0 0 z) = z.
Proof.
  intros Hz. unfold distance. simpl.
  replace ((0 - 0) * (0 - 0) + (0 - 0) * (0 - 0) + (z - 0) * (z - 0)) with (z * z) by ring.
  by apply sqrt_square.
Qed.

Lemma far_clip_boundary_witness :
  integratePoint (configuredTuning Sample.lib) (mkPoint3 0 0 0) (mkPoint3 0 0 3)
                 (chiselMap Sample.fresh) = chiselMap Sample.fresh /\
  1 <= weight (voxelAt
         (integratePoint (configuredTuning Sample.lib) (mkPoint3 0 0 0) (mkPoint3 0 0 1)
                         (chiselMap Sample.fresh))
         (chunkOf (16, 16, 16)%Z (Q2R 0.06) (mkPoint3 0 0 0))
         (offsetOf (16, 16, 16)%Z (Q2R 0.06) (mkPoint3 0 0 0))).
Proof.
  destruct (configuredTuning_values Sample.lib) as (_ & Hw & _ & _ & Hfc).
  split.
  - apply (far_clip_boundary Sample.lib (mkPoint3 0 0 0) (mkPoint3 0 0 3)
             (chiselMap Sample.fresh)).
    rewrite distance_on_z_axis, Hfc by lra. lra.
  - destruct (far_clip_boundary Sample.lib (mkPoint3 0 0 0) (mkPoint3 0 0 1)
                (chiselMap Sample.fresh)) as (_ & _ & _ & Hnear).
    assert (Hfresh : forall id off, voxelAt (chiselMap Sample.fresh) id off = unobserved).
    { intros id off. unfold voxelAt, getOrCreateChunk. simpl.
      by rewrite lookup_empty. }
    eapply Rle_trans; [|apply Hnear].
    + rewrite Hfresh, Hw. simpl. lra.
    + simpl. unfold Q2R. simpl. lra.
    + rewrite distance_on_z_axis, Hfc by lra. lra.
Defined.

(** C5 fails as stated: the point (0, 0, 0) seen from the identity pose
    has range 0, strictly below the far-clip distance 2.0, and
    integrating it leaves every chunk store exactly as it was. *)
Lemma far_clip_zero_range_counterexample :
  distance (sensorOrigin Sample.identity)
           (toWorld Sample.identity
              (Vec3_to_Point3 (mkVec3 Sample.zero Sample.zero Sample.zero))) = 0 /\
  0 < Q2R (farClipping Sample.fresh) /\
  forall cm : ChunkManager,
    integrate (projectionIntegrator Sample.fresh)
              [mkVec3 Sample.zero Sample.zero Sample.zero] Sample.identity
              (rayTruncation Sample.fresh) (farClipping Sample.fresh) cm = Some cm.
Proof.
  assert (Hrange :
    distance (sensorOrigin Sample.identity)
             (toWorld Sample.identity
                (Vec3_to_Point3 (mkVec3 Sample.zero Sample.zero Sample.zero))) = 0).
  { unfold distance, sensorOrigin, toWorld, Vec3_to_Point3. cbn [px py pz v0 v1 v2].
    change (SF2R Sample.zero) with 0.
    change (SF2R (Transform_at Sample.identity I0 I3)) with 0.
    change (SF2R (Transform_at Sample.identity I1 I3)) with 0.
    change (SF2R (Transform_at Sample.identity I2 I3)) with 0.
    match goal with |- sqrt ?e = 0 => replace e with 0 by ring end.
    apply sqrt_0. }
  split; [exact Hrange|]. split.
  - unfold Q2R. simpl. lra.
  - intros cm. unfold integrate.
    change (forallb Vec3_finite [mkVec3 Sample.zero Sample.zero Sample.zero]
            && Transform_finite Sample.identity) with true.
    cbn [fold_left]. f_equal.
    apply integratePoint_skips_zero_length. rewrite Hrange. lra.
Qed.

(** ** The weighted average *)


















End Integrator.

(** * Further properties of the facade *)

(** ** Grouping by three *)

Lemma list_ind3 {A} (P : list A -> Prop) :
  P [] -> (forall x, P [x]) -> (forall x y, P [x; y]) ->
  (forall x y z rest, P rest -> P (x :: y :: z :: rest)) ->
  forall l, P l.
Proof.
  intros H0 H1 H2 H3. fix IH 1.
  intros [|x [|y [|z rest]]]; [exact H0 | apply H1 | apply H2 | apply H3, IH].
Qed.

Lemma div3_SSS (n : nat) : (S (S (S n)) / 3 = S (n / 3))%nat.
Proof.
  change (S (S (S n))) with (1 * 3 + n)%nat.
  rewrite Nat.div_add_l by lia. reflexivity.
Qed.

Lemma triples_length (vs : list float) : length (triples vs) = (length vs / 3)%nat.
Proof.
  induction vs as [| x | x y | x y z rest IH] using list_ind3; try reflexivity.
  cbn [triples length]. rewrite IH, div3_SSS. reflexivity.
Qed.

Lemma triples_lookup (vs : list float) (i : nat) :
  (i < length vs / 3)%nat -> triples vs !! i = triple_at vs i.
Proof.
  revert i. induction vs as [| x | x y | x y z rest IH] using list_ind3; intros i Hi;
    try (cbn in Hi; lia).
  cbn [length] in Hi. rewrite div3_SSS in Hi.
  destruct i as [|i].
  - reflexivity.
  - cbn [triples]. rewrite lookup_cons_ne_0 by lia. cbn [pred].
    rewrite IH by lia. unfold triple_at.
    replace (3 * S i)%nat with (S (S (S (3 * i)))) by lia.
    replace (S (S (S (3 * i))) + 1)%nat with (S (S (S (3 * i + 1)))) by lia.
    replace (S (S (S (3 * i))) + 2)%nat with (S (S (S (3 * i + 2)))) by lia.
    reflexivity.
Qed.

Lemma triples_flatten (vs : list float) :
  flat_map xyz (triples vs) = take (3 * (length vs / 3)) vs.
Proof.
  induction vs as [| x | x y | x y z rest IH] using list_ind3; try reflexivity.
  cbn [length]. rewrite div3_SSS.
  replace (3 * S (length rest / 3))%nat with (S (S (S (3 * (length rest / 3))))) by lia.
  cbn [triples flat_map xyz v0 v1 v2 app take]. rewrite IH. reflexivity.
Qed.

Lemma triples_app (vs ws : list float) :
  (length vs mod 3 = 0)%nat -> triples (vs ++ ws) = triples vs ++ triples ws.
Proof.
  induction vs as [| x | x y | x y z rest IH] using list_ind3; intros Hmod;
    try (cbn in Hmod; discriminate).
  - reflexivity.
  - cbn [app triples]. rewrite IH; [reflexivity|].
    cbn [length] in Hmod.
    change (S (S (S (length rest)))) with (1 * 3 + length rest)%nat in Hmod.
    rewrite Nat.add_comm, Nat.Div0.mod_add in Hmod. exact Hmod.
Qed.

Lemma triples_short (vs : list float) : (length vs < 3)%nat -> triples vs = [].
Proof.
  destruct vs as [|x [|y [|z rest]]]; cbn; intros; try reflexivity; lia.
Qed.

(** The cloud [addPoints] leaves is the grouping of its input. *)
Lemma addPoints_run_triples (L : ChiselLib) (a : abi) (self : ChiselMesh L)
    (vs : list float) (T : glm_mat4) (uninit : Transform) :
  (Z.of_nat (length vs) <= INT_MAX)%Z ->
  let integrated :=
    IntegratePointCloud L (projectionIntegrator self) (triples vs) T
                        (rayTruncation self) (farClipping self) (chiselMap self) in
  addPoints L a self vs T uninit =
  Some (mkRun L
    (mkChiselMesh L (chunkSize self) (truncationDistScale self) (weighting self)
       (enableCarving self) (carvingDistance self) (chunkResolution self)
       (farClipping self) (rayTruncation self)
       (default (chiselMap self) integrated)
       (projectionIntegrator self) (triples vs) (vertices_ self) (indices_ self))
    [LOGE "got %d points from as pointcloud data" [Z.of_nat (length vs) / 3 / 3]%Z]
    (bool_decide (is_Some integrated))).
Proof.
  intros Hmax.
  destruct (addPoints_run L a self vs T uninit Hmax) as (cloud & Hlen & Hpts & Hrun).
  assert (Hcloud : cloud = triples vs).
  { apply list_eq. intros i.
    destruct (decide (i < length vs / 3)%nat) as [Hi|Hi].
    - rewrite triples_lookup by exact Hi. apply (Hpts i Hi).
    - rewrite !lookup_ge_None_2; [reflexivity | rewrite triples_length; lia | ].
      change (length cloud) with (length (cloud : list Vec3)). lia. }
  subst cloud. exact Hrun.
Qed.

(** ** More on [addPoints] *)

(** X1.  Flattening the cloud [addPoints] leaves gives back the input up
    to its last complete triple: the first 3 x floor(n/3) floats, in
    order and unchanged. *)
Theorem addPoints_cloud_flattens_to_input (L : ChiselLib) (a : abi) (self : ChiselMesh L)
    (input : list float) (pose : glm_mat4) (uninit : Transform) :
  (Z.of_nat (length input) <= INT_MAX)%Z ->
  exists run,
    addPoints L a self input pose uninit = Some run /\
    flat_map xyz (lastPointCloud (run_self run)) = take (3 * (length input / 3)) input.
Proof.
  intros Hmax. eexists. split; [apply addPoints_run_triples; exact Hmax|].
  cbn [run_self lastPointCloud]. apply triples_flatten.
Qed.

Lemma addPoints_cloud_flattens_to_input_witness :
  exists run,
    addPoints Sample.lib LP64 Sample.fresh
      [Sample.one; Sample.two; Sample.three; Sample.zero; Sample.nan] Sample.identity
      Sample.garbage = Some run /\
    flat_map xyz (lastPointCloud (run_self run)) = [Sample.one; Sample.two; Sample.three].
Proof.
  apply (addPoints_cloud_flattens_to_input Sample.lib LP64 Sample.fresh
           [Sample.one; Sample.two; Sample.three; Sample.zero; Sample.nan]).
  vm_compute. discriminate.
Defined.

(** X2.  One or two floats after the last complete triple change
    nothing: the call returns the same object, the same diagnostic and
    the same completion flag as without them. *)
Theorem addPoints_ignores_partial_triple (L : ChiselLib) (a : abi) (self : ChiselMesh L)
    (input tail : list float) (pose : glm_mat4) (uninit : Transform) :
  (length input mod 3 = 0)%nat -> (length tail < 3)%nat ->
  (Z.of_nat (length (input ++ tail)) <= INT_MAX)%Z ->
  addPoints L a self (input ++ tail) pose uninit = addPoints L a self input pose uninit.
Proof.
  intros Hmod Htail Hmax.
  assert (Hmax' : (Z.of_nat (length input) <= INT_MAX)%Z)
    by (rewrite length_app in Hmax; lia).
  rewrite (addPoints_run_triples L a self (input ++ tail)) by exact Hmax.
  rewrite (addPoints_run_triples L a self input) by exact Hmax'.
  rewrite triples_app, (triples_short tail), app_nil_r by assumption.
  assert (Hdiv : (Z.of_nat (length (input ++ tail)) / 3 = Z.of_nat (length input) / 3)%Z).
  { rewrite length_app. pose proof (Nat.div_mod_eq (length input) 3) as Hq.
    rewrite Hmod, Nat.add_0_r in Hq.
    rewrite Nat2Z.inj_add, Hq at 1. rewrite Nat2Z.inj_mul.
    rewrite (Z.mul_comm (Z.of_nat 3)), Z.div_add_l by lia.
    rewrite (Z.div_small (Z.of_nat (length tail))) by lia.
    rewrite Hq at 2. rewrite Nat2Z.inj_mul, (Z.mul_comm (Z.of_nat 3)), Z.div_mul by lia.
    lia. }
  rewrite Hdiv. reflexivity.
Qed.

Lemma addPoints_ignores_partial_triple_witness :
  addPoints Sample.lib LP64 Sample.fresh
    ([Sample.one; Sample.two; Sample.three] ++ [Sample.nan; Sample.zero])
    Sample.identity Sample.garbage
  = addPoints Sample.lib LP64 Sample.fresh [Sample.one; Sample.two; Sample.three]
      Sample.identity Sample.garbage.
Proof.
  apply addPoints_ignores_partial_triple.
  - reflexivity.
  - simpl. lia.
  - vm_compute. discriminate.
Defined.

(** X3.  With fewer than three floats, the empty input included,
    [addPoints] still runs to its end: it empties the point cloud,
    reports 0 and hands the empty cloud to the integrator. *)
Theorem addPoints_short_input (L : ChiselLib) (a : abi) (self : ChiselMesh L)
    (input : list float) (pose : glm_mat4) (uninit : Transform) :
  (length input < 3)%nat ->
  exists run,
    addPoints L a self input pose uninit = Some run /\
    lastPointCloud (run_self run) = [] /\
    run_log run = [LOGE "got %d points from as pointcloud data" [0%Z]] /\
    chiselMap (run_self run) =
      default (chiselMap self)
        (IntegratePointCloud L (projectionIntegrator self) [] pose
                             (rayTruncation self) (farClipping self) (chiselMap self)).
Proof.
  intros Hshort.
  assert (Hmax : (Z.of_nat (length input) <= INT_MAX)%Z) by (unfold INT_MAX; lia).
  eexists. split; [apply addPoints_run_triples; exact Hmax|].
  cbn [run_self run_log lastPointCloud chiselMap].
  rewrite (triples_short input Hshort).
  rewrite (Z.div_small (Z.of_nat (length input))) by lia.
  repeat split.
Qed.

Lemma addPoints_short_input_witness :
  exists run,
    addPoints Sample.lib ILP32 Sample.fresh [Sample.one; Sample.two] Sample.identity
      Sample.garbage = Some run /\
    lastPointCloud (run_self run) = [] /\
    run_log run = [LOGE "got %d points from as pointcloud data" [0%Z]].
Proof.
  destruct (addPoints_short_input Sample.lib ILP32 Sample.fresh [Sample.one; Sample.two]
              Sample.identity Sample.garbage) as (run & Hrun & Hcloud & Hlog & _).
  - simpl. lia.
  - exists run. repeat split; assumption.
Defined.

(** X4.  When the first of two inputs ends on a triple boundary, the
    cloud of their concatenation is the cloud of the first followed by
    the cloud of the second. *)
Theorem addPoints_cloud_of_concatenation (L : ChiselLib) (a : abi) (self : ChiselMesh L)
    (input1 input2 : list float) (pose : glm_mat4) (uninit : Transform) :
  (length input1 mod 3 = 0)%nat ->
  (Z.of_nat (length (input1 ++ input2)) <= INT_MAX)%Z ->
  exists run1 run2 run,
    addPoints L a self input1 pose uninit = Some run1 /\
    addPoints L a self input2 pose uninit = Some run2 /\
    addPoints L a self (input1 ++ input2) pose uninit = Some run /\
    lastPointCloud (run_self run)
      = lastPointCloud (run_self run1) ++ lastPointCloud (run_self run2).
Proof.
  intros Hmod Hmax.
  assert (Hlen : (Z.of_nat (length input1) <= INT_MAX /\ Z.of_nat (length input2) <= INT_MAX)%Z)
    by (rewrite length_app in Hmax; lia).
  destruct Hlen as [Hmax1 Hmax2].
  eexists _, _, _.
  split; [apply addPoints_run_triples; exact Hmax1|].
  split; [apply addPoints_run_triples; exact Hmax2|].
  split; [apply addPoints_run_triples; exact Hmax|].
  cbn [run_self lastPointCloud]. apply triples_app. exact Hmod.
Qed.

Lemma addPoints_cloud_of_concatenation_witness :
  exists run1 run2 run,
    addPoints Sample.lib LP64 Sample.fresh [Sample.one; Sample.two; Sample.three]
      Sample.identity Sample.garbage = Some run1 /\
    addPoints Sample.lib LP64 Sample.fresh [Sample.zero; Sample.zero; Sample.one; Sample.nan]
      Sample.identity Sample.garbage = Some run2 /\
    addPoints Sample.lib LP64 Sample.fresh
      ([Sample.one; Sample.two; Sample.three]
       ++ [Sample.zero; Sample.zero; Sample.one; Sample.nan])
      Sample.identity Sample.garbage = Some run /\
    lastPointCloud (run_self run)
      = lastPointCloud (run_self run1) ++ lastPointCloud (run_self run2).
Proof.
  apply addPoints_cloud_of_concatenation.
  - reflexivity.
  - vm_compute. discriminate.
Defined.

(** X5.  For an input whose length fits an [int], the 32-bit and the
    64-bit build of [addPoints] do the same. *)
Theorem addPoints_same_on_both_ABIs (L : ChiselLib) (self : ChiselMesh L)
    (input : list float) (pose : glm_mat4) (uninit : Transform) :
  (Z.of_nat (length input) <= INT_MAX)%Z ->
  addPoints L ILP32 self input pose uninit = addPoints L LP64 self input pose uninit.
Proof.
  intros Hmax. by rewrite !addPoints_run_triples.
Qed.

Lemma addPoints_same_on_both_ABIs_witness :
  addPoints Sample.lib ILP32 Sample.fresh (replicate 7 Sample.two) Sample.identity
    Sample.garbage
  = addPoints Sample.lib LP64 Sample.fresh (replicate 7 Sample.two) Sample.identity
      Sample.garbage.
Proof.
  apply addPoints_same_on_both_ABIs. vm_compute. discriminate.
Defined.

(** ** More on [updateVertices] *)

Lemma updateVertices_body_acc (a : abi) (m : Mesh) (acc : list float * list Z) (index : Z) :
  updateVertices_body a m acc index
  = append_buffers acc <$> updateVertices_body a m ([], []) index.
Proof.
  unfold updateVertices_body.
  destruct (vector_at a (vertices m) index) as [v|]; [|reflexivity].
  simpl. unfold append_buffers. simpl. by rewrite <- !app_assoc.
Qed.

Lemma updateVertices_inner_acc (a : abi) (m : Mesh) (ixs : list Z) :
  forall acc,
    updateVertices_inner a m ixs acc
    = append_buffers acc <$> updateVertices_inner a m ixs ([], []).
Proof.
  induction ixs as [|i ixs IH]; intros acc.
  - simpl. unfold append_buffers. simpl. rewrite !app_nil_r. by destruct acc.
  - simpl. rewrite (updateVertices_body_acc a m acc i).
    destruct (updateVertices_body a m ([], []) i) as [r0|]; [|reflexivity].
    simpl. rewrite (IH (append_buffers acc r0)), (IH r0).
    destruct (updateVertices_inner a m ixs ([], [])) as [r|]; [|reflexivity].
    simpl. unfold append_buffers. simpl. by rewrite !app_assoc.
Qed.

Lemma updateVertices_outer_acc (a : abi) (meshMap : MeshMap) :
  forall acc,
    updateVertices_outer a meshMap acc
    = append_buffers acc <$> updateVertices_outer a meshMap ([], []).
Proof.
  induction meshMap as [|meshes rest IH]; intros acc.
  - simpl. unfold append_buffers. simpl. rewrite !app_nil_r. by destruct acc.
  - simpl. rewrite (updateVertices_inner_acc a meshes.2 (indices meshes.2) acc).
    destruct (updateVertices_inner a meshes.2 (indices meshes.2) ([], [])) as [r0|];
      [|reflexivity].
    simpl. rewrite (IH (append_buffers acc r0)), (IH r0).
    destruct (updateVertices_outer a rest ([], [])) as [r|]; [|reflexivity].
    simpl. unfold append_buffers. simpl. by rewrite !app_assoc.
Qed.

Lemma updateVertices_outer_app (a : abi) (meshMap1 meshMap2 : MeshMap) :
  forall acc,
    updateVertices_outer a (meshMap1 ++ meshMap2) acc
    = updateVertices_outer a meshMap1 acc ≫= updateVertices_outer a meshMap2.
Proof.
  induction meshMap1 as [|meshes rest IH]; intros acc; [reflexivity|].
  simpl.
  destruct (updateVertices_inner a meshes.2 (indices meshes.2) acc) as [acc'|]; [|reflexivity].
  simpl. apply IH.
Qed.

(** X6.  The flattening of two mesh maps one after the other is the
    concatenation of their flattenings, buffer by buffer: the index
    entries of a chunk mesh are the same wherever its vertices land in
    the vertex buffer, no offset is added for the chunks before it. *)
Theorem updateVertices_outer_concatenates (a : abi) (meshMap1 meshMap2 : MeshMap)
    (mesh1 mesh2 : list float) (indices1 indices2 : list Z) :
  updateVertices_outer a meshMap1 ([], []) = Some (mesh1, indices1) ->
  updateVertices_outer a meshMap2 ([], []) = Some (mesh2, indices2) ->
  updateVertices_outer a (meshMap1 ++ meshMap2) ([], [])
  = Some (mesh1 ++ mesh2, indices1 ++ indices2).
Proof.
  intros H1 H2. rewrite updateVertices_outer_app, H1. simpl.
  rewrite updateVertices_outer_acc, H2. reflexivity.
Qed.

Lemma updateVertices_outer_concatenates_witness :
  updateVertices_outer LP64
    ([((0, 0, 0)%Z, Sample.triangle Sample.one)] ++ [((0, 0, 1)%Z, Sample.triangle Sample.two)])
    ([], [])
  = Some ([Sample.zero; Sample.zero; Sample.one; Sample.one; Sample.zero; Sample.one;
           Sample.zero; Sample.one; Sample.one]
          ++ [Sample.zero; Sample.zero; Sample.two; Sample.one; Sample.zero; Sample.two;
              Sample.zero; Sample.one; Sample.two],
          [0; 1; 2; 3; 4; 5; 6; 7; 8]%Z ++ [0; 1; 2; 3; 4; 5; 6; 7; 8]%Z).
Proof.
  apply updateVertices_outer_concatenates; reflexivity.
Defined.

Lemma updateVertices_inner_bounds (a : abi) (vs : list Vec3) (ixs : list Z) :
  forall acc r,
    forallb (fun i => (0 <=? i)%Z && (i <? 2 ^ size_bits a)%Z) ixs = true ->
    updateVertices_inner a (mkMesh vs ixs) ixs acc = Some r ->
    Mesh_wf a (mkMesh vs ixs) = true.
Proof.
  assert (Hgen : forall m ixs' acc r,
    vertices m = vs ->
    forallb (fun i => (0 <=? i)%Z && (i <? 2 ^ size_bits a)%Z) ixs' = true ->
    updateVertices_inner a m ixs' acc = Some r ->
    Mesh_wf a (mkMesh vs ixs') = true).
  { intros m ixs'. induction ixs' as [|i ixs' IH]; intros acc r Hm Htyped Hrun;
      [reflexivity|].
    simpl in Htyped. apply andb_true_iff in Htyped as [Hi Htyped].
    apply andb_true_iff in Hi as [Hi0 Hi1].
    simpl in Hrun.
    destruct (updateVertices_body a m acc i) as [acc'|] eqn:Hbody; [|discriminate].
    simpl in Hrun. specialize (IH acc' r Hm Htyped Hrun).
    unfold updateVertices_body, vector_at, wrap_size in Hbody.
    rewrite Z.mod_small in Hbody by lia.
    destruct (vertices m !! Z.to_nat i) as [v|] eqn:Hv; [|discriminate].
    apply lookup_lt_Some in Hv. rewrite Hm in Hv.
    unfold Mesh_wf in *. cbn [indices vertices forallb] in *.
    rewrite IH, Hi0, Hi1. simpl. rewrite !andb_true_r. apply Z.ltb_lt. lia. }
  intros acc r Htyped Hrun. by apply (Hgen (mkMesh vs ixs) ixs acc r).
Qed.

Lemma updateVertices_outer_bounds (a : abi) (meshMap : MeshMap) :
  forall acc r,
    MeshMap_typed a meshMap = true ->
    updateVertices_outer a meshMap acc = Some r ->
    MeshMap_wf a meshMap = true.
Proof.
  induction meshMap as [|[id [vs ixs]] rest IH]; intros acc r Htyped Hrun; [reflexivity|].
  unfold MeshMap_typed in Htyped. simpl in Htyped.
  apply andb_true_iff in Htyped as [Hm Hrest].
  simpl in Hrun.
  destruct (updateVertices_inner a (mkMesh vs ixs) ixs acc) as [acc'|] eqn:Hinner;
    [|discriminate].
  simpl in Hrun. unfold MeshMap_wf. simpl.
  rewrite (updateVertices_inner_bounds a vs ixs acc acc' Hm Hinner). simpl.
  exact (IH acc' r Hrest Hrun).
Qed.

(** X7.  [updateVertices] reads [vertices[index]] without a check: on a
    mesh map whose indices are [size_t] values it returns exactly when
    every index of every chunk mesh names one of that mesh's vertices;
    a single index past the end makes the call undefined. *)
Theorem updateVertices_defined_iff_in_bounds (L : ChiselLib) (a : abi) (self : ChiselMesh L) :
  let meshMap := GetAllMeshes L (UpdateMeshes L (chiselMap self)) in
  MeshMap_typed a meshMap = true ->
  (is_Some (updateVertices L a self) <-> MeshMap_wf a meshMap = true).
Proof.
  intros meshMap Htyped. split.
  - intros [[self' log] Hrun]. unfold updateVertices in Hrun.
    cbn [chiselMap with_chiselMap] in Hrun. fold meshMap in Hrun.
    destruct (updateVertices_outer a meshMap ([], [])) as [r|] eqn:Houter; [|discriminate].
    exact (updateVertices_outer_bounds a meshMap _ r Htyped Houter).
  - intros Hwf. destruct (updateVertices_run L a self Hwf) as [_ Hrun].
    rewrite Hrun. eauto.
Qed.

Lemma updateVertices_defined_iff_in_bounds_witness :
  updateVertices Sample.lib LP64 Sample2.withDangling = None /\
  is_Some (updateVertices Sample.lib LP64 Sample2.withOneTriangle).
Proof.
  split.
  - destruct (updateVertices Sample.lib LP64 Sample2.withDangling) as [r|] eqn:Hrun;
      [|reflexivity].
    assert (Hsome : is_Some (updateVertices Sample.lib LP64 Sample2.withDangling))
      by (rewrite Hrun; eauto).
    apply (updateVertices_defined_iff_in_bounds Sample.lib LP64 Sample2.withDangling) in Hsome.
    + vm_compute in Hsome. discriminate.
    + vm_compute. reflexivity.
  - apply (updateVertices_defined_iff_in_bounds Sample.lib LP64 Sample2.withOneTriangle);
      vm_compute; reflexivity.
Defined.

(** X8.  On a well-formed mesh map the render buffers come out empty
    exactly when no chunk mesh has an index, however many chunks the
    map holds. *)
Theorem updateVertices_empty_buffers (L : ChiselLib) (a : abi) (self : ChiselMesh L) :
  let meshMap := GetAllMeshes L (UpdateMeshes L (chiselMap self)) in
  MeshMap_wf a meshMap = true ->
  exists self' log,
    updateVertices L a self = Some (self', log) /\
    (vertices_ self' = [] <-> all_indices meshMap = []) /\
    (indices_ self' = [] <-> all_indices meshMap = []).
Proof.
  intros meshMap Hwf.
  destruct (updateVertices_run L a self Hwf) as [Hlen Hrun].
  fold meshMap in Hlen, Hrun.
  eexists _, _. split; [exact Hrun|].
  cbn [SetVertices vertices_ indices_].
  split; split; intros H.
  - apply (f_equal length) in H. rewrite length_flat_map_xyz, Hlen in H.
    destruct (all_indices meshMap); [reflexivity | simpl in H; lia].
  - rewrite H in Hlen. destruct (indexed_vertices meshMap); [reflexivity | discriminate].
  - apply (f_equal length) in H. rewrite length_flat_map_stored in H.
    destruct (all_indices meshMap); [reflexivity | simpl in H; lia].
  - rewrite H. reflexivity.
Qed.

Lemma updateVertices_empty_buffers_witness :
  exists self' log,
    updateVertices Sample.lib LP64 Sample2.withEmptyMesh = Some (self', log) /\
    vertices_ self' = [] /\ indices_ self' = [].
Proof.
  destruct (updateVertices_empty_buffers Sample.lib LP64 Sample2.withEmptyMesh)
    as (self' & log & Hrun & Hv & Hi).
  - vm_compute. reflexivity.
  - exists self', log. split; [exact Hrun|].
    split; [apply Hv | apply Hi]; vm_compute; reflexivity.
Defined.

(** X9.  [updateVertices] rebuilds the render buffers from nothing and
    leaves the point cloud alone: what the buffers held before the call
    has no influence on its outcome, and the point cloud after the call
    is the point cloud before it. *)
Theorem updateVertices_overwrites_buffers (L : ChiselLib) (a : abi) (self : ChiselMesh L)
    (old_vertices : list float) (old_indices : list Z) :
  updateVertices L a (SetVertices L self old_vertices old_indices) = updateVertices L a self /\
  forall self' log,
    updateVertices L a self = Some (self', log) ->
    lastPointCloud self' = lastPointCloud self.
Proof.
  split.
  - unfold updateVertices. cbn [chiselMap SetVertices with_chiselMap].
    destruct (updateVertices_outer a _ ([], [])) as [[mesh ixs]|]; reflexivity.
  - intros self' log Hrun.
    apply (updateVertices_configuration L a self self' log Hrun).
Qed.

Lemma updateVertices_overwrites_buffers_witness :
  exists self' log,
    updateVertices Sample.lib LP64 Sample.withTwoTriangles = Some (self', log) /\
    lastPointCloud self' = lastPointCloud Sample.withTwoTriangles.
Proof.
  destruct (updateVertices_run Sample.lib LP64 Sample.withTwoTriangles) as [_ Hrun];
    [vm_compute; reflexivity|].
  eexists _, _. split; [exact Hrun|].
  eapply (updateVertices_overwrites_buffers Sample.lib LP64 Sample.withTwoTriangles [] []).
  exact Hrun.
Defined.

(** X10.  The figure [updateVertices] reports as polygons is the number
    of floats in the vertex buffer divided by 3, that is the number of
    indexed vertices, one per index of the mesh map (three per
    triangle). *)
Theorem updateVertices_logs_vertex_count (L : ChiselLib) (a : abi) (self : ChiselMesh L) :
  let meshMap := GetAllMeshes L (UpdateMeshes L (chiselMap self)) in
  MeshMap_wf a meshMap = true ->
  exists self',
    updateVertices L a self =
      Some (self',
            [LOGI "Generating Mesh ..." [];
             LOGI "Map with %d items" [Z.of_nat (length meshMap)];
             LOGI "Got %d polygons" [Z.of_nat (length (all_indices meshMap))]]) /\
    length (vertices_ self') = (3 * length (all_indices meshMap))%nat.
Proof.
  intros meshMap Hwf.
  destruct (updateVertices_run L a self Hwf) as [Hlen Hrun].
  fold meshMap in Hlen, Hrun.
  eexists. split.
  - rewrite Hrun. rewrite length_flat_map_xyz, Hlen.
    rewrite Nat2Z.inj_mul, Z.mul_comm, Z.div_mul by lia. reflexivity.
  - cbn [SetVertices vertices_]. by rewrite length_flat_map_xyz, Hlen.
Qed.

Lemma updateVertices_logs_vertex_count_witness :
  exists self',
    updateVertices Sample.lib LP64 Sample.withTwoTriangles =
      Some (self',
            [LOGI "Generating Mesh ..." [];
             LOGI "Map with %d items" [2%Z];
             LOGI "Got %d polygons" [6%Z]]).
Proof.
  destruct (updateVertices_logs_vertex_count Sample.lib LP64 Sample.withTwoTriangles)
    as (self' & Hrun & _).
  - vm_compute. reflexivity.
  - exists self'. exact Hrun.
Defined.

Lemma MeshMap_wf_LP64 (meshMap : MeshMap) :
  MeshMap_wf ILP32 meshMap = true -> MeshMap_wf LP64 meshMap = true.
Proof.
  unfold MeshMap_wf, Mesh_wf. rewrite !forallb_forall. intros H meshes Hin.
  specialize (H meshes Hin). rewrite forallb_forall in H |- *. intros i Hi.
  specialize (H i Hi). simpl size_bits in *.
  apply andb_true_iff in H as [H Hsz]. rewrite H. simpl.
  apply Z.ltb_lt in Hsz. apply Z.ltb_lt. lia.
Qed.

(** X11.  On a mesh map that is well formed for the 32-bit build, the
    32-bit and the 64-bit build of [updateVertices] produce the same
    object and diagnostics: the width of [size_t] does not show in the
    16-bit index entries. *)
Theorem updateVertices_same_on_both_ABIs (L : ChiselLib) (self : ChiselMesh L) :
  MeshMap_wf ILP32 (GetAllMeshes L (UpdateMeshes L (chiselMap self))) = true ->
  updateVertices L ILP32 self = updateVertices L LP64 self.
Proof.
  intros Hwf.
  destruct (updateVertices_run L ILP32 self Hwf) as [_ H32].
  destruct (updateVertices_run L LP64 self (MeshMap_wf_LP64 _ Hwf)) as [_ H64].
  by rewrite H32, H64.
Qed.

Lemma updateVertices_same_on_both_ABIs_witness :
  updateVertices Sample.lib ILP32 Sample.withBigMesh
  = updateVertices Sample.lib LP64 Sample.withBigMesh.
Proof.
  apply updateVertices_same_on_both_ABIs.
  rewrite bigMesh_map. unfold MeshMap_wf. cbn [forallb snd]. by rewrite bigMesh_wf.
Defined.

Lemma stored_entries_seqZ (k : nat) :
  forall m : nat,
    (3 * (Z.of_nat m + Z.of_nat k) <= 65536)%Z ->
    flat_map stored_entries (seqZ (Z.of_nat m) (Z.of_nat k))
    = seqZ (3 * Z.of_nat m) (3 * Z.of_nat k).
Proof.
  induction k as [|k IH]; intros m Hk; [reflexivity|].
  rewrite seqZ_cons by lia.
  replace (Z.succ (Z.of_nat m)) with (Z.of_nat (S m)) by lia.
  replace (Z.pred (Z.of_nat (S k))) with (Z.of_nat k) by lia.
  cbn [flat_map]. rewrite IH by lia.
  unfold stored_entries. rewrite !Z.mod_small by lia.
  rewrite (seqZ_cons (3 * Z.of_nat m)) by lia.
  rewrite (seqZ_cons (Z.succ (3 * Z.of_nat m))) by lia.
  rewrite (seqZ_cons (Z.succ (Z.succ (3 * Z.of_nat m)))) by lia.
  cbn [app]. repeat f_equal; lia.
Qed.

Lemma lookups_seqZ {A} (vs : list A) (k : nat) :
  forall m : nat,
    (m + k <= length vs)%nat ->
    omap (fun i => vs !! Z.to_nat i) (seqZ (Z.of_nat m) (Z.of_nat k)) = take k (drop m vs).
Proof.
  induction k as [|k IH]; intros m Hk; [reflexivity|].
  rewrite seqZ_cons by lia.
  replace (Z.succ (Z.of_nat m)) with (Z.of_nat (S m)) by lia.
  replace (Z.pred (Z.of_nat (S k))) with (Z.of_nat k) by lia.
  destruct (lookup_lt_is_Some_2 vs m) as [x Hx]; [lia|].
  simpl. rewrite Nat2Z.id, Hx. rewrite (drop_S vs x m Hx). simpl.
  f_equal. apply IH. lia.
Qed.

(** X12.  For a mesh map of one chunk whose index list is
    0, 1, ..., n-1 over its n vertices (3n at most 65536), the vertex
    buffer is the vertex list flattened and the index buffer is
    0, 1, ..., 3n-1: three entries per vertex held. *)
Theorem updateVertices_sequential_indices (L : ChiselLib) (a : abi) (self : ChiselMesh L)
    (id : ChunkID) (vs : list Vec3) :
  GetAllMeshes L (UpdateMeshes L (chiselMap self))
    = [(id, mkMesh vs (seqZ 0 (Z.of_nat (length vs))))] ->
  (3 * Z.of_nat (length vs) <= 65536)%Z ->
  exists self' log,
    updateVertices L a self = Some (self', log) /\
    vertices_ self' = flat_map xyz vs /\
    indices_ self' = seqZ 0 (3 * Z.of_nat (length vs)).
Proof.
  intros Hmap Hn.
  assert (Hwf : MeshMap_wf a (GetAllMeshes L (UpdateMeshes L (chiselMap self))) = true).
  { rewrite Hmap. unfold MeshMap_wf, Mesh_wf. cbn [forallb snd indices vertices].
    rewrite andb_true_r. apply forallb_forall. intros i Hi.
    apply list_elem_of_In, elem_of_seqZ in Hi.
    assert (Hsz : (65536 < 2 ^ size_bits a)%Z) by (destruct a; reflexivity).
    rewrite !andb_true_iff, Z.leb_le, !Z.ltb_lt. lia. }
  destruct (updateVertices_run L a self Hwf) as [_ Hrun].
  rewrite Hmap in Hrun.
  eexists _, _. split; [exact Hrun|].
  cbn [SetVertices vertices_ indices_].
  unfold indexed_vertices, all_indices. cbn [flat_map snd indices vertices].
  rewrite !app_nil_r. split.
  - change 0%Z with (Z.of_nat 0). rewrite lookups_seqZ by (simpl; lia).
    rewrite drop_0, firstn_all. reflexivity.
  - change 0%Z with (Z.of_nat 0) at 1. rewrite stored_entries_seqZ by (simpl; lia).
    reflexivity.
Qed.

Lemma updateVertices_sequential_indices_witness :
  exists self' log,
    updateVertices Sample.lib LP64 Sample2.withOneTriangle = Some (self', log) /\
    indices_ self' = [0; 1; 2; 3; 4; 5; 6; 7; 8]%Z.
Proof.
  destruct (updateVertices_sequential_indices Sample.lib LP64 Sample2.withOneTriangle
              (0, 0, 0)%Z (vertices (Sample.triangle Sample.one)))
    as (self' & log & Hrun & _ & Hix).
  - apply remesh_no_chunks.
  - simpl. lia.
  - exists self', log. split; [exact Hrun|]. rewrite Hix. reflexivity.
Defined.

(** * Properties of the rendering functions *)

Lemma SetShader_flags (G : TangoGL) (d : DrawState (BoundingBox G) (Rotation G)) :
  is_lighting_on_ (SetShader G d).1 = false /\ is_bounding_box_on_ (SetShader G d).1 = false.
Proof.
  unfold SetShader. destruct (DrawableObject_SetShader G d) as [d' log]. by split.
Qed.

Lemma IsIntersecting_after_SetShader (G : TangoGL)
    (d : DrawState (BoundingBox G) (Rotation G)) (segment : Segment G) :
  IsIntersecting G (SetShader G d).1 segment
  = Some (false, [LOGE "ChiselMesh::IsIntersecting, bounding box is not available." []]).
Proof.
  unfold IsIntersecting. destruct (SetShader_flags G d) as [_ ->]. reflexivity.
Qed.

Lemma perform_draw_box_available (L : ChiselLib) (G : TangoGL)
    (obj obj' : ChiselMesh L * DrawState (BoundingBox G) (Rotation G)) (c : draw_call) :
  perform_draw L G obj c = Some obj' -> box_available G obj.2 -> box_available G obj'.2.
Proof.
  unfold box_available. destruct obj as [self d].
  destruct c as [| b | | v | c]; simpl; intros Hrun Hbox.
  - injection Hrun as <-. simpl. destruct (SetShader_flags G d) as [_ Hoff].
    rewrite Hoff. discriminate.
  - injection Hrun as <-. simpl. destruct b; simpl.
    + exact Hbox.
    + destruct (SetShader_flags G d) as [_ Hoff]. rewrite Hoff. discriminate.
  - injection Hrun as <-. simpl. unfold SetBoundingBox.
    destruct (Z.of_nat (length (vertices_ self)) =? 0)%Z; simpl; [exact Hbox | eauto].
  - injection Hrun as <-. exact Hbox.
  - destruct (perform L self c) as [self'|]; [|discriminate].
    injection Hrun as <-. exact Hbox.
Qed.

(** X13.  [SetBoundingBox] refuses to build a box while there are no
    vertices: it writes an error and leaves the object as it is.  With
    vertices it builds the box from the current vertex buffer, and
    [IsIntersecting] then answers with that box, the object's rotation
    and its transformation matrix. *)
Theorem SetBoundingBox_needs_vertices (L : ChiselLib) (G : TangoGL) (self : ChiselMesh L)
    (d : DrawState (BoundingBox G) (Rotation G)) (segment : Segment G) :
  (vertices_ self = [] ->
   SetBoundingBox L G self d = (d, [LOGE "Please set up vertices first!" []])) /\
  (vertices_ self <> [] ->
   IsIntersecting G (SetBoundingBox L G self d).1 segment
   = Some (BoundingBox_IsIntersecting G (BoundingBox_new G (vertices_ self)) segment
             (rotation d) (transformation_matrix d), [])).
Proof.
  unfold SetBoundingBox. split; intros Hv.
  - rewrite Hv. reflexivity.
  - destruct (vertices_ self) as [|x vs]; [contradiction|]. reflexivity.
Qed.

Lemma SetBoundingBox_needs_vertices_witness :
  SetBoundingBox Sample.lib Sample2.gl Sample.fresh Sample2.unset
  = (Sample2.unset, [LOGE "Please set up vertices first!" []]).
Proof.
  apply (SetBoundingBox_needs_vertices Sample.lib Sample2.gl Sample.fresh Sample2.unset tt).
  reflexivity.
Defined.

(** X14.  Resetting the shader switches intersection tests off:
    after [SetShader()] or [SetShader(false)], whatever box was set
    before, [IsIntersecting] answers false for every segment and
    writes its error, until [SetBoundingBox] is called again.
    [SetShader(true)] leaves the answer as it was. *)
Theorem SetShader_switches_intersection_off (G : TangoGL)
    (d : DrawState (BoundingBox G) (Rotation G)) (segment : Segment G) :
  IsIntersecting G (SetShader G d).1 segment
    = Some (false, [LOGE "ChiselMesh::IsIntersecting, bounding box is not available." []]) /\
  IsIntersecting G (SetShader_lighting G false d).1 segment
    = Some (false, [LOGE "ChiselMesh::IsIntersecting, bounding box is not available." []]) /\
  IsIntersecting G (SetShader_lighting G true d).1 segment = IsIntersecting G d segment.
Proof.
  split; [apply IsIntersecting_after_SetShader|].
  split; [apply IsIntersecting_after_SetShader | reflexivity].
Qed.

(** X15.  On an object built by the default constructor,
    [IsIntersecting] is defined after any sequence of [SetShader],
    [SetBoundingBox], [SetLightDirection], [addPoints] and
    [updateVertices] calls, whatever the members held before the
    constructor ran: the box is followed only when one has been built.
    Right after construction the answer is false. *)
Theorem IsIntersecting_defined_after_construction (L : ChiselLib) (G : TangoGL)
    (initialCloud : PointCloud) (initial : DrawState (BoundingBox G) (Rotation G))
    (calls : list draw_call) (obj : ChiselMesh L * DrawState (BoundingBox G) (Rotation G))
    (segment : Segment G) :
  perform_draws L G calls (ChiselMesh_new L initialCloud, (ChiselMesh_new_draw G initial).1)
    = Some obj ->
  is_Some (IsIntersecting G obj.2 segment) /\
  IsIntersecting G (ChiselMesh_new_draw G initial).1 segment
    = Some (false, [LOGE "ChiselMesh::IsIntersecting, bounding box is not available." []]).
Proof.
  intros Hrun. split.
  - assert (Hinv : box_available G obj.2).
    { revert Hrun.
      assert (Hstart : box_available G
                (ChiselMesh_new L initialCloud, (ChiselMesh_new_draw G initial).1).2).
      { unfold box_available, ChiselMesh_new_draw. simpl.
        destruct (SetShader_flags G (with_render_mode G initial GL_TRIANGLES)) as [_ ->].
        discriminate. }
      revert Hstart.
      generalize (ChiselMesh_new L initialCloud, (ChiselMesh_new_draw G initial).1).
      induction calls as [|c calls IH]; intros start Hstart Hrun.
      - injection Hrun as <-. exact Hstart.
      - simpl in Hrun.
        destruct (perform_draw L G start c) as [next|] eqn:Hc; [|discriminate].
        simpl in Hrun.
        exact (IH next (perform_draw_box_available L G start next c Hc Hstart) Hrun). }
    unfold IsIntersecting. unfold box_available in Hinv.
    destruct (is_bounding_box_on_ obj.2); simpl; [|eauto].
    destruct (Hinv eq_refl) as [box ->]. simpl. eauto.
  - unfold ChiselMesh_new_draw. apply IsIntersecting_after_SetShader.
Qed.

Lemma IsIntersecting_defined_after_construction_witness :
  exists obj,
    perform_draws Sample.lib Sample2.gl
      [CallSetBoundingBox; CallFacade (UpdateVertices LP64); CallSetShaderLighting true]
      (ChiselMesh_new Sample.lib [], (ChiselMesh_new_draw Sample2.gl Sample2.unset).1)
      = Some obj /\
    is_Some (IsIntersecting Sample2.gl obj.2 tt).
Proof.
  eexists. split; [reflexivity|].
  refine (proj1 (IsIntersecting_defined_after_construction Sample.lib Sample2.gl []
                   Sample2.unset
                   [CallSetBoundingBox; CallFacade (UpdateVertices LP64);
                    CallSetShaderLighting true] _ tt eq_refl)).
Defined.

(** The other constructor assigns [render_mode_] alone: with the
    bounding-box flag left set and no box, [IsIntersecting] is
    undefined. *)
Example IsIntersecting_after_mode_constructor :
  IsIntersecting Sample2.gl (ChiselMesh_new_mode Sample2.gl GL_TRIANGLES Sample2.unset) tt
  = None.
Proof. reflexivity. Qed.

(** ** [Render] *)

Lemma address_of_first_Some {A} (v : list A) :
  v <> [] -> address_of_first v = Some v.
Proof. destruct v; [contradiction | reflexivity]. Qed.

(** The calls of a [Render] that returns, by the two tests it makes. *)
Lemma Render_calls (L : ChiselLib) (G : TangoGL) (self : ChiselMesh L)
    (d : DrawState (BoundingBox G) (Rotation G)) (projection_mat view_mat : glm_mat4)
    (calls : list gl_call) :
  Render L G self d projection_mat view_mat = Some calls ->
  let mv_mat := mat4_mul G view_mat (transformation_matrix d) in
  let head :=
    [glUseProgram (shader_program_ d);
     glUniformMatrix4fv (uniform_mvp_mat_ d) 1 GL_FALSE (mat4_mul G projection_mat mv_mat);
     glUniform4f (uniform_color_ d) (red_ d) (green_ d) (blue_ d) (alpha_ d)] in
  let lighting :=
    [glUniformMatrix4fv (uniform_mv_mat_ d) 1 GL_FALSE mv_mat;
     glEnableVertexAttribArray (attrib_normals_ d);
     glVertexAttribPointer (attrib_normals_ d) 3 GL_FLOAT GL_FALSE 12 (normals_ d);
     glUniform3fv (uniform_light_vec_ d) 1 (mat3_mul_vec3 G view_mat (light_direction_ d))] in
  let draw :=
    if bool_decide (indices_ self = []) then
      glDrawArrays (render_mode_ d) 0 (wrap_int (Z.of_nat (length (vertices_ self)) / 3))
    else
      glDrawElements (render_mode_ d) (wrap_int (Z.of_nat (length (indices_ self))))
                     GL_UNSIGNED_SHORT (indices_ self) in
  let body :=
    [glEnableVertexAttribArray (attrib_vertices_ d);
     glVertexAttribPointer (attrib_vertices_ d) 3 GL_FLOAT GL_FALSE 12 (vertices_ self);
     draw;
     glDisableVertexAttribArray (attrib_vertices_ d)] in
  (is_lighting_on_ d = true -> normals_ d <> []) /\
  (indices_ self = [] -> vertices_ self <> []) /\
  calls =
    if is_lighting_on_ d
    then head ++ lighting ++ body ++ [glDisableVertexAttribArray (attrib_normals_ d);
                                      glUseProgram 0]
    else head ++ body ++ [glUseProgram 0].
Proof.
  unfold Render, data, address_of_first.
  destruct (is_lighting_on_ d), (normals_ d) as [|n ns], (indices_ self) as [|i ixs],
    (vertices_ self) as [|x vs]; simpl; intros Hrun; try discriminate;
    injection Hrun as <-; repeat split; intros; try discriminate; reflexivity.
Qed.

(** X16.  [Render] takes [&normals_[0]] when lighting is on and
    [&vertices_[0]] when there are no indices, so it is defined exactly
    when the normals are not empty under lighting and the vertices are
    not empty in the absence of indices; with indices it goes through
    [data()] and an empty vertex array is no obstacle. *)
Theorem Render_defined_iff (L : ChiselLib) (G : TangoGL) (self : ChiselMesh L)
    (d : DrawState (BoundingBox G) (Rotation G)) (projection_mat view_mat : glm_mat4) :
  is_Some (Render L G self d projection_mat view_mat) <->
  (is_lighting_on_ d = true -> normals_ d <> []) /\
  (indices_ self = [] -> vertices_ self <> []).
Proof.
  split.
  - intros [calls Hrun].
    destruct (Render_calls L G self d projection_mat view_mat calls Hrun) as (H1 & H2 & _).
    by split.
  - intros [Hn Hv]. unfold Render, data.
    destruct (is_lighting_on_ d).
    + rewrite (address_of_first_Some (normals_ d)) by (by apply Hn). simpl.
      destruct (indices_ self) as [|i ixs]; simpl; [|eauto].
      rewrite (address_of_first_Some (vertices_ self)) by (by apply Hv). simpl. eauto.
    + simpl. destruct (indices_ self) as [|i ixs]; simpl; [|eauto].
      rewrite (address_of_first_Some (vertices_ self)) by (by apply Hv). simpl. eauto.
Qed.

(** X17.  A [Render] that returns issues exactly one draw call:
    [glDrawElements] over the whole index buffer, as unsigned shorts,
    when there are indices, and [glDrawArrays] over a third of the
    vertex floats otherwise, both in the object's render mode. *)
Theorem Render_draws_once (L : ChiselLib) (G : TangoGL) (self : ChiselMesh L)
    (d : DrawState (BoundingBox G) (Rotation G)) (projection_mat view_mat : glm_mat4)
    (calls : list gl_call) :
  Render L G self d projection_mat view_mat = Some calls ->
  List.filter is_draw calls =
    [if bool_decide (indices_ self = []) then
       glDrawArrays (render_mode_ d) 0 (wrap_int (Z.of_nat (length (vertices_ self)) / 3))
     else
       glDrawElements (render_mode_ d) (wrap_int (Z.of_nat (length (indices_ self))))
                      GL_UNSIGNED_SHORT (indices_ self)].
Proof.
  intros Hrun.
  destruct (Render_calls L G self d projection_mat view_mat calls Hrun) as (_ & _ & ->).
  destruct (is_lighting_on_ d), (bool_decide (indices_ self = [])); reflexivity.
Qed.

(** X18.  A [Render] that returns brackets its work: the first call
    selects the object's program and the last selects program 0, and
    every vertex attribute array it enables it also disables, so an
    array is enabled afterwards only if it was before and is neither
    the vertex array nor, under lighting, the normal array. *)
Theorem Render_restores_state (L : ChiselLib) (G : TangoGL) (self : ChiselMesh L)
    (d : DrawState (BoundingBox G) (Rotation G)) (projection_mat view_mat : glm_mat4)
    (calls : list gl_call) :
  Render L G self d projection_mat view_mat = Some calls ->
  head calls = Some (glUseProgram (shader_program_ d)) /\
  last calls = Some (glUseProgram 0) /\
  forall (on : list Z) (i : Z),
    i ∈ arrays_enabled calls on ->
    i ∈ on /\ i <> attrib_vertices_ d /\ (is_lighting_on_ d = true -> i <> attrib_normals_ d).
Proof.
  intros Hrun.
  destruct (Render_calls L G self d projection_mat view_mat calls Hrun) as (_ & _ & ->).
  destruct (is_lighting_on_ d).
  - split; [reflexivity|]. split; [reflexivity|].
    intros on i. destruct (bool_decide (indices_ self = [])); cbn [app arrays_enabled];
      rewrite !list_elem_of_filter, !elem_of_cons; intros (Hn & Hv & Hi);
      (split; [|split]; [intuition congruence | exact Hv | intros _; exact Hn]).
  - split; [reflexivity|]. split; [reflexivity|].
    intros on i. destruct (bool_decide (indices_ self = [])); cbn [app arrays_enabled];
      rewrite !list_elem_of_filter, !elem_of_cons; intros (Hv & Hi);
      (split; [|split]; [intuition congruence | exact Hv | discriminate]).
Qed.

Lemma Render_draws_once_witness :
  exists calls,
    Render Sample.lib Sample2.gl
           (SetVertices Sample.lib Sample.fresh [Sample.one; Sample.two; Sample.three] [])
           Sample2.unset Sample.identity Sample.identity = None /\
    Render Sample.lib Sample2.gl
           (SetVertices Sample.lib Sample.fresh [Sample.one; Sample.two; Sample.three] [])
           (SetShader Sample2.gl Sample2.unset).1 Sample.identity Sample.identity
      = Some calls /\
    List.filter is_draw calls = [glDrawArrays 0 0 1].
Proof.
  eexists. split; [reflexivity|]. split; [reflexivity|].
  apply (Render_draws_once Sample.lib Sample2.gl
           (SetVertices Sample.lib Sample.fresh [Sample.one; Sample.two; Sample.three] [])
           (SetShader Sample2.gl Sample2.unset).1 Sample.identity Sample.identity).
  reflexivity.
Defined.

Lemma Render_restores_state_witness :
  exists calls,
    Render Sample.lib Sample2.gl
           (SetVertices Sample.lib Sample.fresh [Sample.one; Sample.two; Sample.three] [0%Z])
           (SetShader Sample2.gl Sample2.unset).1 Sample.identity Sample.identity
      = Some calls /\
    head calls = Some (glUseProgram 0) /\
    last calls = Some (glUseProgram 0) /\
    arrays_enabled calls [7%Z] = [7%Z].
Proof.
  eexists. split; [reflexivity|].
  destruct (Render_restores_state Sample.lib Sample2.gl
              (SetVertices Sample.lib Sample.fresh [Sample.one; Sample.two; Sample.three] [0%Z])
              (SetShader Sample2.gl Sample2.unset).1 Sample.identity Sample.identity _ eq_refl)
    as (Hhead & Hlast & _).
  split; [exact Hhead|]. split; [exact Hlast | reflexivity].
Defined.

(** X19.  Drawing what [updateVertices] produced, with lighting off: when
    the mesh map has at least one index, [Render] issues
    [glDrawElements] with a count of three times the number of vertices
    held by the vertex array it passes, over the entries
    (3i + k) mod 65536; when the mesh map has no index the buffers are
    empty and [Render] is undefined, taking [&vertices_[0]] of an empty
    vector. *)
Theorem Render_after_updateVertices (L : ChiselLib) (G : TangoGL) (a : abi)
    (self : ChiselMesh L) (d : DrawState (BoundingBox G) (Rotation G))
    (projection_mat view_mat : glm_mat4) :
  let meshMap := GetAllMeshes L (UpdateMeshes L (chiselMap self)) in
  MeshMap_wf a meshMap = true ->
  is_lighting_on_ d = false ->
  (3 * Z.of_nat (length (all_indices meshMap)) <= INT_MAX)%Z ->
  exists self' log,
    updateVertices L a self = Some (self', log) /\
    length (vertices_ self') = (3 * length (all_indices meshMap))%nat /\
    (all_indices meshMap <> [] ->
     Render L G self' d projection_mat view_mat =
     Some [glUseProgram (shader_program_ d);
           glUniformMatrix4fv (uniform_mvp_mat_ d) 1 false
             (mat4_mul G projection_mat (mat4_mul G view_mat (transformation_matrix d)));
           glUniform4f (uniform_color_ d) (red_ d) (green_ d) (blue_ d) (alpha_ d);
           glEnableVertexAttribArray (attrib_vertices_ d);
           glVertexAttribPointer (attrib_vertices_ d) 3 GL_FLOAT false 12 (vertices_ self');
           glDrawElements (render_mode_ d) (3 * Z.of_nat (length (all_indices meshMap)))
                          GL_UNSIGNED_SHORT
                          (flat_map stored_entries (all_indices meshMap));
           glDisableVertexAttribArray (attrib_vertices_ d);
           glUseProgram 0]) /\
    (all_indices meshMap = [] -> Render L G self' d projection_mat view_mat = None).
Proof.
  intros meshMap Hwf Hoff Hmax.
  destruct (updateVertices_run L a self Hwf) as [Hlen Hrun].
  fold meshMap in Hlen, Hrun.
  eexists _, _. split; [exact Hrun|].
  cbn [SetVertices vertices_ indices_].
  split; [by rewrite length_flat_map_xyz, Hlen|].
  unfold Render, data. cbn [SetVertices vertices_ indices_]. rewrite Hoff.
  split.
  - intros Hne.
    assert (Hix : flat_map stored_entries (all_indices meshMap) <> []).
    { destruct (all_indices meshMap); [contradiction | discriminate]. }
    rewrite bool_decide_false by exact Hix.
    rewrite length_flat_map_stored, Nat2Z.inj_mul.
    unfold INT_MAX in Hmax. rewrite wrap_int_small by lia.
    reflexivity.
  - intros Hnil. rewrite Hnil in Hlen |- *.
    destruct (indexed_vertices meshMap); [reflexivity | discriminate].
Qed.

Lemma Render_after_updateVertices_witness :
  exists self' log calls,
    updateVertices Sample.lib LP64 Sample2.withOneTriangle = Some (self', log) /\
    Render Sample.lib Sample2.gl self' (SetShader Sample2.gl Sample2.unset).1
           Sample.identity Sample.identity = Some calls /\
    List.filter is_draw calls
      = [glDrawElements 0 9 GL_UNSIGNED_SHORT [0; 1; 2; 3; 4; 5; 6; 7; 8]%Z] /\
    length (vertices_ self') = 9%nat.
Proof.
  destruct (Render_after_updateVertices Sample.lib Sample2.gl LP64 Sample2.withOneTriangle
              (SetShader Sample2.gl Sample2.unset).1 Sample.identity Sample.identity)
    as (self' & log & Hrun & Hlen & Hdraw & _).
  - vm_compute. reflexivity.
  - reflexivity.
  - vm_compute. discriminate.
  - eexists self', log, _. split; [exact Hrun|].
    split; [apply Hdraw; vm_compute; discriminate|].
    split; [vm_compute; reflexivity|].
    rewrite Hlen. vm_compute. reflexivity.
Defined.

(** X20.  A failed program creation is only reported.  When
    [CreateProgram] returns 0, [SetShader(true)] writes its error and
    goes on: the program member is 0, the four uniform and the two
    attribute locations are the ones queried on program 0 (the
    attribute locations as [GLuint] values), lighting is on, the light
    direction is the normalised default, and every other member is
    left as it was.  A later [Render] returns as soon as there is a
    normal and something to draw, and every [Render] that returns
    selects program 0 first and passes those locations on. *)
Theorem SetShader_lighting_failed_program (L : ChiselLib) (G : TangoGL)
    (d : DrawState (BoundingBox G) (Rotation G)) :
  CreateProgram G (GetShadedVertexShader G) (GetBasicFragmentShader G) = 0%Z ->
  (SetShader_lighting G true d).2 = [LOGE "Could not create program." []] /\
  (SetShader_lighting G true d).1
    = mkDrawState (render_mode_ d) 0
        (glGetUniformLocation G 0 "mvp") (glGetUniformLocation G 0 "mv")
        (glGetUniformLocation G 0 "lightVec") (glGetUniformLocation G 0 "color")
        (to_GLuint (glGetAttribLocation G 0 "vertex"))
        (to_GLuint (glGetAttribLocation G 0 "normal"))
        true (is_bounding_box_on_ d)
        (normalize G (minus_one, minus_three, minus_one)) (bounding_box_ d)
        (normals_ d) (red_ d) (green_ d) (blue_ d) (alpha_ d) (rotation d)
        (transformation_matrix d) /\
  forall (self : ChiselMesh L) (projection_mat view_mat : glm_mat4),
    (normals_ d <> [] -> (indices_ self = [] -> vertices_ self <> []) ->
     exists calls,
       Render L G self (SetShader_lighting G true d).1 projection_mat view_mat = Some calls) /\
    (forall calls : list gl_call,
       Render L G self (SetShader_lighting G true d).1 projection_mat view_mat = Some calls ->
       head calls = Some (glUseProgram 0) /\
       In (glUniformMatrix4fv (glGetUniformLocation G 0 "mvp") 1 GL_FALSE
             (mat4_mul G projection_mat (mat4_mul G view_mat (transformation_matrix d))))
          calls /\
       In (glUniform4f (glGetUniformLocation G 0 "color") (red_ d) (green_ d) (blue_ d)
             (alpha_ d)) calls /\
       In (glUniformMatrix4fv (glGetUniformLocation G 0 "mv") 1 GL_FALSE
             (mat4_mul G view_mat (transformation_matrix d))) calls /\
       In (glUniform3fv (glGetUniformLocation G 0 "lightVec") 1
             (mat3_mul_vec3 G view_mat (normalize G (minus_one, minus_three, minus_one))))
          calls /\
       In (glEnableVertexAttribArray (to_GLuint (glGetAttribLocation G 0 "normal"))) calls /\
       In (glEnableVertexAttribArray (to_GLuint (glGetAttribLocation G 0 "vertex"))) calls).
Proof.
  intros Hfail. unfold SetShader_lighting. rewrite Hfail. cbn [fst snd Z.eqb].
  split; [reflexivity|]. split; [reflexivity|].
  intros self projection_mat view_mat. split.
  - intros Hnormals Hdraw. unfold Render. cbn [is_lighting_on_ normals_].
    destruct (normals_ d) as [|n ns]; [contradiction|]. cbn [address_of_first].
    destruct (bool_decide (indices_ self = [])) eqn:Hix.
    + apply bool_decide_eq_true in Hix. specialize (Hdraw Hix).
      destruct (vertices_ self) as [|v vs]; [contradiction|].
      eexists. reflexivity.
    + eexists. reflexivity.
  - intros calls Hrun.
    destruct (Render_calls L G self _ projection_mat view_mat calls Hrun) as (_ & _ & ->).
    cbn [is_lighting_on_ shader_program_ uniform_mvp_mat_ uniform_mv_mat_ uniform_light_vec_
         uniform_color_ attrib_vertices_ attrib_normals_ light_direction_ normals_
         red_ green_ blue_ alpha_ transformation_matrix app head].
    repeat split; cbn [In]; auto 12.
Qed.

Lemma SetShader_lighting_failed_program_witness :
  exists calls,
    (SetShader_lighting Sample2.glFailing true Sample2.withNormal).2
      = [LOGE "Could not create program." []] /\
    Render Sample.lib Sample2.glFailing
           (SetVertices Sample.lib Sample.fresh [Sample.one; Sample.two; Sample.three] [0%Z])
           (SetShader_lighting Sample2.glFailing true Sample2.withNormal).1
           Sample.identity Sample.identity = Some calls /\
    head calls = Some (glUseProgram 0) /\
    In (glEnableVertexAttribArray 4294967295) calls.
Proof.
  destruct (SetShader_lighting_failed_program Sample.lib Sample2.glFailing Sample2.withNormal
              eq_refl) as (Hlog & _ & Hrender).
  destruct (Hrender
              (SetVertices Sample.lib Sample.fresh [Sample.one; Sample.two; Sample.three] [0%Z])
              Sample.identity Sample.identity) as [Hdefined Hcalls].
  destruct Hdefined as [calls Hrun]; [discriminate | discriminate |].
  exists calls. split; [exact Hlog|]. split; [exact Hrun|].
  destruct (Hcalls calls Hrun) as (Hhead & _ & _ & _ & _ & Hnormal & _).
  split; [exact Hhead | exact Hnormal].
Defined.

(** ** Repeated integration through the facade *)

Section RepeatedFacade.

Import Volume.
Local Open Scope R_scope.





End RepeatedFacade.
